(** * ai_tool_poster: a shallow embedding of [ai_tool_poster.py]

    The script reads a CSV table of tool records, picks the first one,
    composes a short message, renders a card image and publishes both.
    Every function of the script is embedded below as a Rocq function:
    pure code as plain functions, code that touches the file system, the
    environment, Pillow or the network as functions over an explicit
    description of that outside world, returning an outcome together with
    the trace of observable events.

    Python [str] values are sequences of Unicode code points and [len]
    counts code points; strings are therefore modelled as lists of code
    points and never as encoded bytes. *)

From Stdlib Require Import String Ascii List NArith ZArith Lia Bool DecimalString.
Import ListNotations.
Open Scope string_scope.
Open Scope list_scope.

(** ** Python strings *)

Abbreviation char := N (only parsing).
Abbreviation pystr := (list N) (only parsing).

(** An ASCII literal of the source, as a list of code points. *)
Definition py (s : string) : pystr := map N_of_ascii (list_ascii_of_string s).

(** [len(s)], a Python integer. *)
Definition len {A : Type} (s : list A) : Z := Z.of_nat (length s).

Definition is_empty {A : Type} (s : list A) : bool :=
  match s with [] => true | _ :: _ => false end.

Definition is_some {A : Type} (o : option A) : bool :=
  match o with Some _ => true | None => false end.

Fixpoint pystr_eqb (a b : pystr) : bool :=
  match a, b with
  | [], [] => true
  | x :: a', y :: b' => (x =? y)%N && pystr_eqb a' b'
  | _, _ => false
  end.

(** [str.isspace] on one code point: the white-space table of CPython's
    Unicode database ([_PyUnicode_IsWhitespace]). *)
Definition isspace (c : char) : bool :=
  (((0x09 <=? c) && (c <=? 0x0D)) || ((0x1C <=? c) && (c <=? 0x20))
   || (c =? 0x85) || (c =? 0xA0) || (c =? 0x1680)
   || ((0x2000 <=? c) && (c <=? 0x200A))
   || (c =? 0x2028) || (c =? 0x2029) || (c =? 0x202F) || (c =? 0x205F)
   || (c =? 0x3000))%N.

(** [s.lstrip()], [s.rstrip()], [s.strip()] without argument. *)
Fixpoint lstrip (s : pystr) : pystr :=
  match s with
  | c :: r => if isspace c then lstrip r else s
  | [] => []
  end.

Definition rstrip (s : pystr) : pystr := rev (lstrip (rev s)).

Definition strip (s : pystr) : pystr := rstrip (lstrip s).

(** [s.strip() == ''] : the string holds white space only. *)
Definition blank (s : pystr) : bool := is_empty (strip s).

(** [s.split()] without argument: the maximal runs of non-space
    characters.  [cur] is the run being read, most recent character
    first. *)
Fixpoint split_from (cur : pystr) (s : pystr) : list pystr :=
  match s with
  | [] => if is_empty cur then [] else [rev cur]
  | c :: r =>
      if isspace c
      then (if is_empty cur then split_from [] r else rev cur :: split_from [] r)
      else split_from (c :: cur) r
  end.

Definition split (s : pystr) : list pystr := split_from [] s.

(** [sep.join(l)]. *)
Fixpoint join (sep : pystr) (l : list pystr) : pystr :=
  match l with
  | [] => []
  | x :: r => match r with [] => x | _ :: _ => x ++ sep ++ join sep r end
  end.

(** Python slice [s[:e]] for an integer [e] of either sign. *)
Definition slice_to {A : Type} (s : list A) (e : Z) : list A :=
  if (e <? 0)%Z then firstn (length s - Z.to_nat (- e)) s
  else firstn (Z.to_nat e) s.

(** Python slice [s[e:]]. *)
Definition slice_from {A : Type} (s : list A) (e : Z) : list A :=
  if (e <? 0)%Z then skipn (length s - Z.to_nat (- e)) s
  else skipn (Z.to_nat e) s.

(** ** Outcomes of a call

    A call returns a value, raises an exception, or (for the one loop
    that is run on fuel) exhausts its fuel. *)

Inductive exn : Type :=
| FileNotFoundError (msg : pystr)
| ValueError (msg : pystr)
| AttributeError (msg : pystr)
| TypeError (msg : pystr)
| UnicodeEncodeError (encoding : pystr) (object : pystr)
| IndexError (msg : pystr)
| OSError (msg : pystr)
| HTTPError (status : Z)
| RequestException (msg : pystr).

Inductive outcome (A : Type) : Type :=
| Ret (a : A)
| Raise (e : exn)
| OutOfFuel.
Arguments Ret {A} a.
Arguments Raise {A} e.
Arguments OutOfFuel {A}.

Definition bind {A B : Type} (m : outcome A) (k : A -> outcome B) : outcome B :=
  match m with
  | Ret a => k a
  | Raise e => Raise e
  | OutOfFuel => OutOfFuel
  end.

Declare Scope outcome_scope.
Delimit Scope outcome_scope with outcome.
Notation "x <- m ;; k" := (bind m (fun x => k))
  (at level 61, m at next level, right associativity) : outcome_scope.

(** ** [textwrap.shorten] (CPython 3.11, [Lib/textwrap.py])

    [compose_post] calls [textwrap.shorten(text, width, placeholder)],
    which builds [TextWrapper(width, max_lines=1, placeholder)] with every
    other option at its default ([initial_indent = subsequent_indent = ''],
    [expand_tabs], [replace_whitespace], [drop_whitespace],
    [break_long_words] and [break_on_hyphens] set, [fix_sentence_endings]
    unset, [tabsize = 8]) and returns
    [w.fill(' '.join(text.strip().split()))].  The model below is that
    wrapper with these options fixed.

    The chunk-splitting regular expression uses the classes [\w] and [\d],
    which CPython answers from its Unicode database: [\w] is
    [Py_UNICODE_ISALNUM] or an underscore, [\d] is [Py_UNICODE_ISDECIMAL].
    The two tables are taken as parameters of the section. *)

Module Textwrap.
Section Wrapper.

Variable uni_isalnum : char -> bool.
Variable uni_isdecimal : char -> bool.

Variable width : Z.
Variable placeholder : pystr.

Definition max_lines : Z := 1.
Definition initial_indent : pystr := [].
Definition subsequent_indent : pystr := [].
Definition tabsize : N := 8.

(** [_whitespace = '\t\n\x0b\x0c\r '] *)
Definition tw_whitespace (c : char) : bool :=
  ((c =? 9) || (c =? 10) || (c =? 11) || (c =? 12) || (c =? 13) || (c =? 32))%N.

Definition hyphen : char := 45%N.

(** The classes of the expression: [\w]; [word_punct], which is [\w]
    or one of the seven marks with codes 33, 34, 39, 38, 46, 44, 63; and
    [letter], which is [\w] without [\d]. *)
Definition is_word (c : char) : bool := uni_isalnum c || (c =? 95)%N.

Definition word_punct (c : char) : bool :=
  is_word c
  || ((c =? 33) || (c =? 34) || (c =? 39) || (c =? 38) || (c =? 46) || (c =? 44) || (c =? 63))%N.

Definition letter (c : char) : bool := is_word c && negb (uni_isdecimal c).

(** [text.expandtabs(tabsize)]: [col] is the current column. *)
Fixpoint expandtabs_from (col : N) (s : pystr) : pystr :=
  match s with
  | [] => []
  | c :: r =>
      if (c =? 9)%N
      then let incr := (tabsize - col mod tabsize)%N in
           repeat 32%N (N.to_nat incr) ++ expandtabs_from (col + incr)%N r
      else c :: expandtabs_from (if ((c =? 10) || (c =? 13))%N then 0%N else (col + 1)%N) r
  end.

Definition expandtabs (s : pystr) : pystr := expandtabs_from 0%N s.

(** [_munge_whitespace]: expand tabs, then turn each character of
    [_whitespace] into a space. *)
Definition _munge_whitespace (text : pystr) : pystr :=
  map (fun c => if tw_whitespace c then 32%N else c) (expandtabs text).

(** *** [wordsep_re]

    The expression is one capturing group of three alternatives, tried in
    order at the current position.  [before] is the text to the left of
    the position, nearest character first (the look-behinds read it). *)

Fixpoint count_while (p : char -> bool) (s : pystr) : nat :=
  match s with
  | c :: r => if p c then S (count_while p r) else 0
  | [] => 0
  end.

Definition prev_is (p : char -> bool) (before : pystr) : bool :=
  match before with c :: _ => p c | [] => false end.

(** [-{2,}] followed by [\w]: returns the number of hyphens. *)
Definition emdash_ahead (s : pystr) : option nat :=
  let k := count_while (fun c => (c =? hyphen)%N) s in
  if (2 <=? k)%nat
  then match skipn k s with
       | c :: _ => if is_word c then Some k else None
       | [] => None
       end
  else None.

(** [-(?: (?<=lt{2}-) | (?<=lt-lt-)) (?= lt -? lt)] at [s], with
    [before] to its left. *)
Definition hyphen_break (before s : pystr) : bool :=
  match s with
  | h :: after =>
      (h =? hyphen)%N
      && (match before with
          | l1 :: l2 :: rest =>
              (letter l1 && letter l2)
              || (letter l1 && (l2 =? hyphen)%N && prev_is letter rest)
          | _ => false
          end)
      && (match after with
          | a1 :: a2 :: rest =>
              letter a1 && (((a2 =? hyphen)%N && prev_is letter rest) || letter a2)
          | _ => false
          end)
  | [] => false
  end.

(** Third alternative, after its lazy [nws+?] has taken the characters
    now at the head of [before]: how many more characters the match
    takes from [s]. *)
Fixpoint word_more (before s : pystr) : nat :=
  if hyphen_break before s then 1
  else match s with
       | [] => 0
       | c :: r =>
           if tw_whitespace c then 0
           else if prev_is word_punct before && is_some (emdash_ahead s) then 0
           else S (word_more (c :: before) r)
       end.

(** Length of the match of [wordsep_re] at the head of [s]. *)
Definition match_len (before s : pystr) : nat :=
  match s with
  | [] => 0
  | c :: r =>
      if tw_whitespace c then count_while tw_whitespace s
      else match (if prev_is word_punct before then emdash_ahead s else None) with
           | Some k => k
           | None => S (word_more (c :: before) r)
           end
  end.

(** [wordsep_re.split(text)] without its empty strings: the successive
    matches.  A match is found at every position, so no text lies
    between two matches. *)
Fixpoint split_chunks_from (fuel : nat) (before s : pystr) : list pystr :=
  match s with
  | [] => []
  | _ :: _ =>
      match fuel with
      | O => [s]
      | S fuel' =>
          let n := match_len before s in
          let chunk := firstn n s in
          chunk :: split_chunks_from fuel' (rev chunk ++ before) (skipn n s)
      end
  end.

(** [_split] *)
Definition _split (text : pystr) : list pystr :=
  split_chunks_from (length text) [] text.

(** [_split_chunks] *)
Definition _split_chunks (text : pystr) : list pystr :=
  _split (_munge_whitespace text).

(** *** [_wrap_chunks]

    The source reverses [chunks] and pops from its end; here the list is
    kept in reading order and its head is [chunks[-1]].  [cur_line] is
    kept with the chunk appended last at its head, so the head is
    [cur_line[-1]] and [''.join(cur_line)] is [concat (rev cur_line)]. *)

Definition sum_len (l : list pystr) : Z := fold_right (fun c n => (len c + n)%Z) 0%Z l.

Fixpoint rfind_from (c : char) (i : Z) (s : pystr) (found : Z) : Z :=
  match s with
  | [] => found
  | x :: r => rfind_from c (i + 1)%Z r (if (x =? c)%N then i else found)
  end.

(** [s.rfind(c)]: the highest index of [c] in [s], or [-1]. *)
Definition rfind (c : char) (s : pystr) : Z := rfind_from c 0%Z s (-1)%Z.

(** [_handle_long_word] with [break_long_words] and [break_on_hyphens]
    set: returns the new [cur_line] and the new [chunks]. *)
Definition _handle_long_word (chunks cur_line : list pystr) (cur_len width0 : Z)
  : list pystr * list pystr :=
  let space_left := if (width0 <? 1)%Z then 1%Z else (width0 - cur_len)%Z in
  match chunks with
  | [] => (cur_line, chunks)
  | chunk :: rest =>
      let e :=
        if (len chunk >? space_left)%Z
        then let hy := rfind hyphen (slice_to chunk space_left) in
             if (hy >? 0)%Z && existsb (fun c => negb (c =? hyphen)%N) (slice_to chunk hy)
             then (hy + 1)%Z else space_left
        else space_left in
      (slice_to chunk e :: cur_line, slice_from chunk e :: rest)
  end.

(** The inner [while chunks] loop: move chunks to the line while they
    fit. *)
Fixpoint take_fitting (width0 : Z) (chunks cur_line : list pystr) (cur_len : Z)
  : list pystr * Z * list pystr :=
  match chunks with
  | c :: rest =>
      if (cur_len + len c <=? width0)%Z
      then take_fitting width0 rest (c :: cur_line) (cur_len + len c)%Z
      else (cur_line, cur_len, chunks)
  | [] => (cur_line, cur_len, [])
  end.

(** One pass of the outer loop up to the test [if cur_line]: the line
    that was filled, its length and the chunks that remain. *)
Definition fill_line (chunks lines : list pystr) : list pystr * Z * list pystr :=
  let width0 := (width - len (if is_empty lines then initial_indent else subsequent_indent))%Z in
  let chunks :=
    match chunks with
    | c :: rest => if blank c && negb (is_empty lines) then rest else chunks
    | [] => chunks
    end in
  let '(cur_line, cur_len, chunks) := take_fitting width0 chunks [] 0%Z in
  let '(cur_line, cur_len, chunks) :=
    match chunks with
    | c :: _ =>
        if (len c >? width0)%Z
        then let '(cl, ch) := _handle_long_word chunks cur_line cur_len width0 in
             (cl, sum_len cl, ch)
        else (cur_line, cur_len, chunks)
    | [] => (cur_line, cur_len, chunks)
    end in
  match cur_line with
  | l :: r => if blank l then (r, (cur_len - len l)%Z, chunks) else (cur_line, cur_len, chunks)
  | [] => (cur_line, cur_len, chunks)
  end.

(** The [while cur_line] loop of the truncating branch: [Some] is its
    [break], [None] its [else] clause. *)
Fixpoint truncate_line (width0 : Z) (cur_line : list pystr) (cur_len : Z)
  : option (list pystr) :=
  match cur_line with
  | l :: r =>
      if negb (blank l) && (cur_len + len placeholder <=? width0)%Z
      then Some (placeholder :: cur_line)
      else truncate_line width0 r (cur_len - len l)%Z
  | [] => None
  end.

(** [not chunks or (drop_whitespace and len(chunks) == 1 and not chunks[0].strip())] *)
Definition nothing_left (chunks : list pystr) : bool :=
  match chunks with
  | [] => true
  | [c] => blank c
  | _ => false
  end.

(** The outer [while chunks] loop. *)
Fixpoint wrap_loop (fuel : nat) (chunks lines : list pystr) : outcome (list pystr) :=
  match chunks with
  | [] => Ret lines
  | _ :: _ =>
      match fuel with
      | O => OutOfFuel
      | S fuel' =>
          let indent := if is_empty lines then initial_indent else subsequent_indent in
          let width0 := (width - len indent)%Z in
          let '(cur_line, cur_len, chunks') := fill_line chunks lines in
          match cur_line with
          | [] => wrap_loop fuel' chunks' lines
          | _ :: _ =>
              if (len lines + 1 <? max_lines)%Z
                 || (nothing_left chunks' && (cur_len <=? width0)%Z)
              then wrap_loop fuel' chunks' (lines ++ [indent ++ concat (rev cur_line)])
              else
                match truncate_line width0 cur_line cur_len with
                | Some cl => Ret (lines ++ [indent ++ concat (rev cl)])
                | None =>
                    match rev lines with
                    | prev :: earlier =>
                        let prev_line := rstrip prev in
                        if (len prev_line + len placeholder <=? width)%Z
                        then Ret (rev earlier ++ [prev_line ++ placeholder])
                        else Ret (lines ++ [indent ++ lstrip placeholder])
                    | [] => Ret (lines ++ [indent ++ lstrip placeholder])
                    end
                end
          end
      end
  end.

(** Every pass of the outer loop removes a character or a chunk, so this
    much fuel is enough (see [wrap_loop_fuel]). *)
Definition chunks_size (chunks : list pystr) : nat :=
  fold_right (fun c n => S (length c + n)) 0 chunks.

Definition _wrap_chunks (chunks : list pystr) : outcome (list pystr) :=
  if (width <=? 0)%Z then Raise (ValueError (py "invalid width (must be > 0)"))
  else if (len initial_indent + len (lstrip placeholder) >? width)%Z
  then Raise (ValueError (py "placeholder too large for max width"))
  else wrap_loop (S (chunks_size chunks)) chunks [].

(** [wrap] and [fill] *)
Definition wrap (text : pystr) : outcome (list pystr) :=
  _wrap_chunks (_split_chunks text).

Definition fill (text : pystr) : outcome pystr :=
  bind (wrap text) (fun lines => Ret (join [10%N] lines)).

(** [shorten(text, width, placeholder=placeholder)] *)
Definition shorten (text : pystr) : outcome pystr :=
  fill (join [32%N] (split (strip text))).

End Wrapper.
End Textwrap.

(** The Unicode tables restricted to ASCII: they agree with CPython's on
    every ASCII character and answer [false] elsewhere. *)
Definition ascii_isdecimal (c : char) : bool := ((48 <=? c) && (c <=? 57))%N.

Definition ascii_isalnum (c : char) : bool :=
  (ascii_isdecimal c || ((65 <=? c) && (c <=? 90)) || ((97 <=? c) && (c <=? 122)))%N.

(** ** Records of the table

    [csv.DictReader] yields one [dict] per row.  Its keys are the strings
    of the header row, and [None] (the default [restkey]) for the surplus
    fields of a row longer than the header; its values are strings,
    [None] (the default [restval]) for the fields a short row lacks, and a
    list of strings under the key [None].  The entries under string keys
    are kept in insertion order in [fields]; the entry under [None] is
    [restkey_entry]. *)

Inductive pyval : Type :=
| VNone
| VStr (s : pystr).

Record dict : Type := mkdict {
  fields : list (pystr * pyval);
  restkey_entry : option (list pystr)
}.

(** [d.get(key)]: [None] here stands for an absent key. *)
Fixpoint lookup (key : pystr) (l : list (pystr * pyval)) : option pyval :=
  match l with
  | [] => None
  | (k, v) :: r => if pystr_eqb k key then Some v else lookup key r
  end.

(** [d.get(key, default)] *)
Definition dict_get (d : dict) (key : pystr) (default : pyval) : pyval :=
  match lookup key (fields d) with
  | Some v => v
  | None => default
  end.

(** [d[key] = v]: an existing key keeps its place. *)
Fixpoint set_item (l : list (pystr * pyval)) (key : pystr) (v : pyval)
  : list (pystr * pyval) :=
  match l with
  | [] => [(key, v)]
  | (k, w) :: r => if pystr_eqb k key then (k, v) :: r else (k, w) :: set_item r key v
  end.

(** Truth value of a Python value: [None] and [''] are false. *)
Definition truthy (v : pyval) : bool :=
  match v with
  | VStr (_ :: _) => true
  | _ => false
  end.

(** What an f-string or [str.format] puts for a value. *)
Definition format_value (v : pyval) : pystr :=
  match v with
  | VStr s => s
  | VNone => py "None"
  end.

(** *** [csv.DictReader] (CPython 3.11, [Lib/csv.py])

    The underlying [csv.reader] is taken at its output: the list of raw
    rows (lists of field strings) it yields for the file. *)

Definition restval : pyval := VNone.

(** The body of [DictReader.__next__] after a non-blank row was read. *)
Definition make_row (fieldnames row : list pystr) : dict :=
  let d := fold_left (fun d kv => set_item d (fst kv) (VStr (snd kv)))
                     (combine fieldnames row) [] in
  let lf := len fieldnames in
  let lr := len row in
  if (lf <? lr)%Z then mkdict d (Some (slice_from row lf))
  else if (lf >? lr)%Z
  then mkdict (fold_left (fun d key => set_item d key restval) (slice_from fieldnames lr) d) None
  else mkdict d None.

(** Iterating over the reader: blank rows ([row == []]) are passed
    over. *)
Fixpoint dict_rows (fieldnames : list pystr) (rows : list (list pystr)) : list dict :=
  match rows with
  | [] => []
  | row :: rest =>
      if is_empty row then dict_rows fieldnames rest
      else make_row fieldnames row :: dict_rows fieldnames rest
  end.

(** [csv.DictReader(csvfile)]: the first raw row gives the field names. *)
Definition DictReader (raw : list (list pystr)) : list dict :=
  match raw with
  | [] => []
  | fieldnames :: rows => dict_rows fieldnames rows
  end.

(** ** [read_ai_tools]

    The file system is given by [files]: a path that exists maps to the
    raw rows [csv.reader] yields for the file at that path. *)

Definition read_ai_tools (files : pystr -> option (list (list pystr))) (csv_path : pystr)
  : outcome (list dict) :=
  match files csv_path with
  | None => Raise (FileNotFoundError (py "Cannot find tools list: " ++ csv_path))
  | Some raw =>
      let tools :=
        fold_left (fun tools row =>
                     if negb (truthy (dict_get row (py "name") VNone)) then tools
                     else tools ++ [row])
                  (DictReader raw) [] in
      if is_empty tools then Raise (ValueError (py "No tools found in CSV file"))
      else Ret tools
  end.

(** ** [select_next_tool] *)

Definition select_next_tool (tools : list dict) : outcome dict :=
  match tools with
  | t :: _ => Ret t
  | [] => Raise (IndexError (py "list index out of range"))
  end.

(** ** [compose_post] *)

Section Compose.

Variable uni_isalnum : char -> bool.
Variable uni_isdecimal : char -> bool.

Definition marker : pystr := [0x1F195%N].
Definition separator : pystr := [0xFF1A%N].
Definition full_stop : pystr := [0x3002%N].
(** [' 詳しくはこちら 👉 '] *)
Definition call_to_action : pystr :=
  [0x20; 0x8A73; 0x3057; 0x304F; 0x306F; 0x3053; 0x3061; 0x3089; 0x20; 0x1F449; 0x20]%N.
(** [' #AI #AIツール'] *)
Definition hashtags : pystr :=
  [0x20; 0x23; 0x41; 0x49; 0x20; 0x23; 0x41; 0x49; 0x30C4; 0x30FC; 0x30EB]%N.
Definition ellipsis : pystr := [0x2026%N].

(** [template.format(name=..., tagline=..., short_desc=..., url=...)] *)
Definition template_format (name tagline short_desc url : pystr) : pystr :=
  marker ++ name ++ separator ++ tagline ++ full_stop ++ short_desc
         ++ call_to_action ++ url ++ hashtags.

(** The f-string [static_text]. *)
Definition static_text (tool : dict) : pystr :=
  marker ++ format_value (dict_get tool (py "name") (VStr []))
         ++ separator ++ format_value (dict_get tool (py "tagline") (VStr []))
         ++ full_stop ++ call_to_action
         ++ format_value (dict_get tool (py "url") (VStr [])) ++ hashtags.

(** [description.strip()]: [None] has no such method. *)
Definition strip_value (v : pyval) : outcome pystr :=
  match v with
  | VStr s => Ret (strip s)
  | VNone => Raise (AttributeError (py "'NoneType' object has no attribute 'strip'"))
  end.

Definition compose_post (tool : dict) : outcome pystr :=
  let name := dict_get tool (py "name") (VStr []) in
  let tagline := dict_get tool (py "tagline") (VStr []) in
  let description := dict_get tool (py "description") (VStr []) in
  let url := dict_get tool (py "url") (VStr []) in
  let static_length := len (static_text tool) in
  let max_total_length := 140%Z in
  let available_for_desc := (max_total_length - static_length)%Z in
  bind (strip_value description) (fun short_desc =>
  bind (if (available_for_desc >? 0)%Z
        then if (len short_desc >? available_for_desc)%Z
             then Textwrap.shorten uni_isalnum uni_isdecimal available_for_desc ellipsis short_desc
             else Ret short_desc
        else Ret [])
       (fun short_desc =>
  Ret (template_format (format_value name) (format_value tagline) short_desc (format_value url)))).

End Compose.

(** ** The outside world

    What the script reads from its surroundings is gathered in one
    record; what it does to them is recorded as a trace of events. *)

(** A font object of Pillow. *)
Inductive font : Type :=
| TrueType (path : pystr) (size : Z)
| DefaultFont.

Inductive draw_op : Type :=
| DrawText (xy : Z * Z) (text : pystr) (fill : Z * Z * Z) (fnt : font).

Record image : Type := mkimage {
  img_mode : pystr;
  img_size : Z * Z;
  img_background : Z * Z * Z;
  img_ops : list draw_op
}.

(** The body of a request made with [requests.post]. *)
Inductive request_body : Type :=
| MediaFile (path : pystr)
| TweetJson (text : pystr) (media_ids : list pyval).

Record request : Type := mkrequest {
  req_url : pystr;
  req_auth : pystr * pystr * pystr * pystr;
  req_body : request_body
}.

(** What [resp.json()] gives: nothing when the body is not JSON, an
    object (with the value under ['media_id_string'], [None] when the key
    is absent, and its printed form) or another JSON value. *)
Inductive json_doc : Type :=
| JObject (media_id_string : pyval) (printed : pystr)
| JOther (printed : pystr).

Record response : Type := mkresponse {
  status_code : Z;
  text : pystr;
  json : option json_doc
}.

Inductive reply : Type :=
| Reply (r : response)
| NoReply (e : exn).

Record World : Type := mkworld {
  getenv : pystr -> option pystr;
  csv_files : pystr -> option (list (list pystr));
  path_exists : pystr -> bool;
  truetype : pystr -> Z -> bool;
  textsize : pystr -> font -> Z * Z;
  save_ok : pystr -> bool;
  save_error : pystr -> exn;
  open_ok : pystr -> bool;
  http_post : request -> reply;
  now : pystr
}.

Inductive event : Type :=
| Print (line : pystr)
| SaveImage (path : pystr) (img : image)
| HttpPost (req : request).

(** A command maps the trace so far to an outcome and the trace after
    it; the events of a command that raises stay in the trace. *)
Definition M (A : Type) : Type := list event -> outcome A * list event.

Definition ret {A : Type} (a : A) : M A := fun t => (Ret a, t).

Definition raise {A : Type} (e : exn) : M A := fun t => (Raise e, t).

Definition lift {A : Type} (o : outcome A) : M A := fun t => (o, t).

Definition mbind {A B : Type} (m : M A) (k : A -> M B) : M B :=
  fun t =>
    match m t with
    | (Ret a, t') => k a t'
    | (Raise e, t') => (Raise e, t')
    | (OutOfFuel, t') => (OutOfFuel, t')
    end.

Definition emit (e : event) : M unit := fun t => (Ret tt, t ++ [e]).

Declare Scope cmd_scope.
Delimit Scope cmd_scope with cmd.
Notation "x <- m ;; k" := (mbind m (fun x => k))
  (at level 61, m at next level, right associativity) : cmd_scope.
Notation "m ;;; k" := (mbind m (fun _ => k))
  (at level 61, right associativity) : cmd_scope.

Definition print (line : pystr) : M unit := emit (Print line).

(** [str(n)] for an integer. *)
Definition str_of_int (n : Z) : pystr := py (NilZero.string_of_int (Z.to_int n)).

(** Truth value of what [os.getenv] returns. *)
Definition truthy_env (v : option pystr) : bool :=
  match v with
  | Some (_ :: _) => true
  | _ => false
  end.

Definition env_value (v : option pystr) : pystr :=
  match v with Some s => s | None => [] end.

(** ** [generate_image]

    Pillow is taken as the releases before 10, which have
    [draw.textsize].  [ImageFont.truetype(path, size)] may raise
    ([truetype] of the world tells whether the load succeeds) and
    otherwise gives the FreeType font of that file and size;
    [ImageFont.load_default] returns the bitmap font built into Pillow.
    Measuring or drawing with a FreeType font takes any text; the
    built-in font encodes the text as Latin-1, line by line, and raises
    [UnicodeEncodeError] on a character above U+00FF.  [image.save]
    writes the file or raises the error the world gives for the path. *)

Section Script.

Variable w : World.

Definition card_width : Z := 1200.
Definition card_height : Z := 675.
Definition bg_color : Z * Z * Z := (255, 255, 255)%Z.
Definition text_color : Z * Z * Z := (30, 30, 30)%Z.

(** The [try] block around font loading with its [except Exception]. *)
Definition load_fonts (font_path : option pystr) : font * font * font :=
  let attempt : option (font * font * font) :=
    if truthy_env font_path && path_exists w (env_value font_path)
    then if truetype w (env_value font_path) 60
         then if truetype w (env_value font_path) 36
              then if truetype w (env_value font_path) 28
                   then Some (TrueType (env_value font_path) 60,
                              TrueType (env_value font_path) 36,
                              TrueType (env_value font_path) 28)
                   else None
              else None
         else None
    else Some (DefaultFont, DefaultFont, DefaultFont) in
  match attempt with
  | Some fonts => fonts
  | None => (DefaultFont, DefaultFont, DefaultFont)
  end.

(** Every character is at most U+00FF. *)
Definition latin1 (s : pystr) : bool := forallb (fun c => (c <=? 0xFF)%N) s.

(** [ImageDraw._multiline_split]: [text.split(chr(10))]. *)
Fixpoint _multiline_split (s : pystr) : list pystr :=
  match s with
  | [] => [[]]
  | c :: rest =>
      if (c =? 10)%N then [] :: _multiline_split rest
      else match _multiline_split rest with
           | line :: lines => (c :: line) :: lines
           | [] => [[c]]
           end
  end.

(** [draw.textsize(text, font=font)]: the lines of the text are measured
    in turn, and the built-in font raises on the first line it cannot
    encode. *)
Definition draw_textsize (s : pystr) (fnt : font) : outcome (Z * Z) :=
  match fnt with
  | TrueType _ _ => Ret (textsize w s fnt)
  | DefaultFont =>
      match find (fun line => negb (latin1 line)) (_multiline_split s) with
      | None => Ret (textsize w s fnt)
      | Some line => Raise (UnicodeEncodeError (py "latin-1") line)
      end
  end.

(** The local function [center_draw]: the text is measured, then drawn
    with the same font; a value that is not a string cannot be
    measured. *)
Definition center_draw (img : image) (txt : pyval) (fnt : font) (y : Z) : outcome image :=
  match txt with
  | VNone => Raise (TypeError (py "argument of type 'NoneType' is not iterable"))
  | VStr s =>
      bind (draw_textsize s fnt) (fun size =>
      let '(tw, th) := size in
      let x := ((card_width - tw) / 2)%Z in
      Ret (mkimage (img_mode img) (img_size img) (img_background img)
                   (img_ops img ++ [DrawText (x, y) s text_color fnt])))
  end.

(** [image.save(output_path)] *)
Definition save (img : image) (output_path : pystr) : M unit :=
  if save_ok w output_path then emit (SaveImage output_path img)
  else raise (save_error w output_path).

Definition generate_image (tool : dict) (output_path : pystr) : M unit :=
  (let img := mkimage (py "RGB") (card_width, card_height) bg_color [] in
   let font_path := getenv w (py "AI_TOOL_FONT") in
   let '(title_font, subtitle_font, url_font) := load_fonts font_path in
   let name := dict_get tool (py "name") (VStr []) in
   let tagline := dict_get tool (py "tagline") (VStr []) in
   let url := dict_get tool (py "url") (VStr []) in
   (* int(height * 0.25), int(height * 0.45), int(height * 0.65) *)
   img <- lift (center_draw img name title_font 168) ;;
   img <- lift (center_draw img tagline subtitle_font 303) ;;
   img <- lift (center_draw img url url_font 438) ;;
   save img output_path)%cmd.

(** ** [post_to_x] *)

Definition upload_url : pystr := py "https://upload.twitter.com/1.1/media/upload.json".
Definition tweet_url : pystr := py "https://api.twitter.com/2/tweets".

(** [open(image_path, 'rb')]: a file saved earlier in the run can be
    opened, as can a file the world holds. *)
Definition saved_at (path : pystr) (e : event) : bool :=
  match e with
  | SaveImage p _ => pystr_eqb p path
  | _ => false
  end.

Definition open_rb (path : pystr) : M unit :=
  fun t =>
    if existsb (saved_at path) t || open_ok w path then (Ret tt, t)
    else (Raise (FileNotFoundError path), t).

(** [requests.post(url, auth=oauth, ...)] *)
Definition requests_post (req : request) : M response :=
  (emit (HttpPost req) ;;;
   match http_post w req with
   | Reply r => ret r
   | NoReply e => raise e
   end)%cmd.

(** [resp.raise_for_status()] *)
Definition raise_for_status (r : response) : M unit :=
  if ((400 <=? status_code r) && (status_code r <? 600))%Z
  then raise (HTTPError (status_code r))
  else ret tt.

(** [resp.json()] *)
Definition json_of (r : response) : M json_doc :=
  match json r with
  | Some j => ret j
  | None => raise (ValueError (py "response body is not JSON"))
  end.

Definition printed_json (j : json_doc) : pystr :=
  match j with
  | JObject _ p => p
  | JOther p => p
  end.

(** [upload_resp.json().get('media_id_string')] *)
Definition get_media_id (j : json_doc) : M pyval :=
  match j with
  | JObject m _ => ret m
  | JOther _ => raise (AttributeError (py "object has no attribute 'get'"))
  end.

Definition post_to_x (status_text image_path : pystr) : M unit :=
  (let api_key := getenv w (py "TWITTER_API_KEY") in
   let api_secret := getenv w (py "TWITTER_API_SECRET") in
   let access_token := getenv w (py "TWITTER_ACCESS_TOKEN") in
   let access_secret := getenv w (py "TWITTER_ACCESS_SECRET") in
   if negb (forallb truthy_env [api_key; api_secret; access_token; access_secret])
   then
     print (py "Missing Twitter API credentials. Printing instead:") ;;;
     print status_text ;;;
     print (py "(Image saved to " ++ image_path ++ py ")") ;;;
     ret tt
   else
     let oauth := (env_value api_key, env_value api_secret,
                   env_value access_token, env_value access_secret) in
     (* Upload media *)
     media_id <-
       (open_rb image_path ;;;
        upload_resp <- requests_post (mkrequest upload_url oauth (MediaFile image_path)) ;;
        raise_for_status upload_resp ;;;
        j <- json_of upload_resp ;;
        get_media_id j) ;;
     (* Create tweet *)
     resp <- requests_post (mkrequest tweet_url oauth (TweetJson status_text [media_id])) ;;
     if (status_code resp >=? 400)%Z
     then print (py "Failed to post tweet: " ++ str_of_int (status_code resp)
                    ++ py " " ++ text resp)
     else j <- json_of resp ;;
          print (py "Posted tweet successfully: " ++ printed_json j))%cmd.

(** ** [main] *)

Variable uni_isalnum : char -> bool.
Variable uni_isdecimal : char -> bool.

(** [os.getenv("AI_TOOL_CSV", "ai_tools.csv")] *)
Definition CSV_FILENAME : pystr :=
  match getenv w (py "AI_TOOL_CSV") with
  | Some v => v
  | None => py "ai_tools.csv"
  end.

Definition main : M unit :=
  (tools <- lift (read_ai_tools (csv_files w) CSV_FILENAME) ;;
   tool <- lift (select_next_tool tools) ;;
   status <- lift (compose_post uni_isalnum uni_isdecimal tool) ;;
   let image_filename := py "ai_tool_card_" ++ now w ++ py ".png" in
   generate_image tool image_filename ;;;
   post_to_x status image_filename)%cmd.

End Script.

(** * Specification

    The predicates in which the properties of the script are stated. *)

(** ** Shortened text *)

Definition spacefree (s : pystr) : bool := forallb (fun c => negb (isspace c)) s.

Definition nonws (c : char) : bool := negb (Textwrap.tw_whitespace c).

Definition ends_with_hyphen (s : pystr) : Prop := exists p, s = p ++ [Textwrap.hyphen].

(** A character of a collapsed text is a plain space or no white space
    at all. *)
Definition normal_char (c : char) : bool := negb (isspace c) || (c =? 32)%N.

Definition word_ok (w : pystr) : Prop := w <> [] /\ spacefree w = true.

(** Where a chunk that is not white space may end: after a hyphen, or in
    front of white space or of a hyphen. *)
Definition cut_point (kept cut : pystr) : Prop :=
  ends_with_hyphen kept
  \/ exists x t, cut = x :: t /\ (Textwrap.tw_whitespace x = true \/ x = Textwrap.hyphen).

(** The text is cut at the end of a word: nothing is kept, or what is
    kept ends with a hyphen, or what is cut starts with a space or a
    hyphen. *)
Definition word_boundary (kept cut : pystr) : Prop :=
  kept = []
  \/ ends_with_hyphen kept
  \/ exists x t, cut = x :: t /\ (x = 32%N \/ x = Textwrap.hyphen).

Section Shapes.

Variable width : Z.
Variable placeholder : pystr.

(** The line of one pass before its trailing white space is dropped:
    either a run of whole chunks, or such a run and a piece of the next
    chunk. *)
Inductive line_shape (chunks : list pystr) (k : nat) (cl2 ch : list pystr) : Prop :=
| shape_whole :
    (1 <= k)%nat -> cl2 = rev (firstn k chunks) -> ch = skipn k chunks ->
    match ch with
    | c :: _ => (Textwrap.sum_len cl2 + len c > width)%Z
    | [] => True
    end ->
    line_shape chunks k cl2 ch
| shape_piece c rest e :
    skipn k chunks = c :: rest ->
    cl2 = slice_to c e :: rev (firstn k chunks) ->
    ch = slice_from c e :: rest ->
    (0 <= e < len c)%Z -> (len c > width)%Z -> (k = 0%nat -> 1 <= e)%Z ->
    (e = width - Textwrap.sum_len (rev (firstn k chunks))
     \/ ends_with_hyphen (slice_to c e))%Z ->
    line_shape chunks k cl2 ch.

(** How the one line of a shortened text relates to the chunks. *)
Inductive shortened (chunks : list pystr) (l : pystr) : Prop :=
| short_whole tail :
    concat chunks = l ++ tail -> forallb isspace tail = true ->
    shortened chunks l
| short_nothing :
    l = lstrip placeholder -> chunks <> [] ->
    shortened chunks l
| short_chunks j :
    (0 < j)%nat ->
    l = concat (firstn j chunks) ++ placeholder ->
    concat (skipn j chunks) <> [] ->
    blank (nth (j - 1) chunks []) = false ->
    shortened chunks l
| short_hyphen kept cut :
    l = kept ++ placeholder ->
    concat chunks = kept ++ cut -> cut <> [] ->
    ends_with_hyphen kept ->
    shortened chunks l.

End Shapes.

(** ** Records with string fields *)

Definition is_str (v : pyval) : bool :=
  match v with VStr _ => true | VNone => false end.

(** The field is a string, or is absent and read as ['']. *)
Definition str_field (tool : dict) (key : pystr) : bool :=
  is_str (dict_get tool key (VStr [])).

(** A ToolRecord: its four fields are strings. *)
Definition string_record (tool : dict) : bool :=
  str_field tool (py "name") && str_field tool (py "tagline")
  && str_field tool (py "description") && str_field tool (py "url").

(** The fields as [compose_post] and [generate_image] read them. *)
Definition name_of (tool : dict) : pystr :=
  format_value (dict_get tool (py "name") (VStr [])).

Definition tagline_of (tool : dict) : pystr :=
  format_value (dict_get tool (py "tagline") (VStr [])).

Definition description_of (tool : dict) : pystr :=
  format_value (dict_get tool (py "description") (VStr [])).

Definition url_of (tool : dict) : pystr :=
  format_value (dict_get tool (py "url") (VStr [])).

(** [available_for_desc]: what the fixed parts leave of the 140
    characters. *)
Definition available_for_desc (tool : dict) : Z := (140 - len (static_text tool))%Z.

Definition record (name tagline description url : pystr) : dict :=
  mkdict [(py "name", VStr name); (py "tagline", VStr tagline);
          (py "description", VStr description); (py "url", VStr url)] None.

(** ** Reading the table *)

(** [row.get("name")] is a non-empty string. *)
Definition has_name (row : dict) : bool := truthy (dict_get row (py "name") VNone).

(** One record per row after the header, without the rows that have no
    name. *)
Definition valid_records (raw : list (list pystr)) : list dict :=
  filter has_name (map (make_row (hd [] raw)) (tl raw)).

(** Every value of the dictionary is [None]. *)
Definition all_none (d : list (pystr * pyval)) : Prop :=
  Forall (fun kv => snd kv = VNone) d.

(** ** Publishing *)

Definition credential_names : list pystr :=
  [py "TWITTER_API_KEY"; py "TWITTER_API_SECRET";
   py "TWITTER_ACCESS_TOKEN"; py "TWITTER_ACCESS_SECRET"].

(** All four credentials are set (and not empty). *)
Definition credentials_present (w : World) : bool :=
  forallb (fun key => truthy_env (getenv w key)) credential_names.

Definition oauth_of (w : World) : pystr * pystr * pystr * pystr :=
  (env_value (getenv w (py "TWITTER_API_KEY")),
   env_value (getenv w (py "TWITTER_API_SECRET")),
   env_value (getenv w (py "TWITTER_ACCESS_TOKEN")),
   env_value (getenv w (py "TWITTER_ACCESS_SECRET"))).

Definition upload_request (w : World) (image_path : pystr) : request :=
  mkrequest upload_url (oauth_of w) (MediaFile image_path).

Definition tweet_request (w : World) (status_text : pystr) (media_id : pyval) : request :=
  mkrequest tweet_url (oauth_of w) (TweetJson status_text [media_id]).

(** An error status in the sense of [raise_for_status]. *)
Definition http_error (status : Z) : bool := ((400 <=? status) && (status <? 600))%Z.

(** [open(image_path, 'rb')] succeeds after the trace [t]. *)
Definition can_open (w : World) (path : pystr) (t : list event) : bool :=
  existsb (saved_at path) t || open_ok w path.

Definition is_http_post (e : event) : bool :=
  match e with HttpPost _ => true | _ => false end.

(** ** Rendering *)

(** The custom font cannot be used: the path is unset or empty, the file
    is missing, or one of the three loads fails. *)
Definition font_unavailable (w : World) : bool :=
  let font_path := getenv w (py "AI_TOOL_FONT") in
  negb (truthy_env font_path && path_exists w (env_value font_path))
  || negb (truetype w (env_value font_path) 60)
  || negb (truetype w (env_value font_path) 36)
  || negb (truetype w (env_value font_path) 28).



(** ** Sample inputs *)

(** The record of the scenario in the specification. *)
Definition foo_tool : dict :=
  record (py "Foo") (py "bar")
         (py "a very long explanatory sentence exceeding the available budget by design")
         (py "http://x.test").

(** A record whose description, of 112 characters, does not fit the 96
    characters left for it. *)
Definition wordy_tool : dict :=
  record (py "Foo") (py "bar")
         (py "one two three four five six seven eight nine ten eleven twelve thirteen fourteen fifteen sixteen seventeen eight")
         (py "http://x.test").

(** A record whose name alone has 116 characters. *)
Definition long_name_tool : dict := record (repeat 97%N 116) [] [] [].

(** A record that leaves three characters for a description which holds
    a run of four spaces. *)
Definition spaced_tool : dict := record (repeat 97%N 112) [] (py "a    b") [].

(** A record whose fixed parts have exactly 140 characters. *)
Definition full_tool : dict := record (repeat 97%N 115) [] (py "dropped") [].

Definition header : list pystr := [py "name"; py "tagline"; py "description"; py "url"].

(** A table whose only row has the name and nothing else. *)
Definition short_row_table : list (list pystr) := [header; [py "Foo"]].

Definition sample_table : list (list pystr) :=
  [header;
   [py "Foo"; py "bar"; py "a tool"; py "http://x.test"];
   [];
   [[]; py "no name"; py "x"; py "y"];
   [py "Baz"]].

Definition sample_files (path : pystr) : option (list (list pystr)) :=
  if pystr_eqb path (py "ai_tools.csv") then Some sample_table else None.

(** The error of a path that cannot be written. *)
Definition no_save_error (path : pystr) : exn :=
  OSError (py "[Errno 13] Permission denied: " ++ path).

(** A world without credentials, fonts or network. *)
Definition offline_world : World :=
  mkworld (fun _ => None) sample_files (fun _ => false) (fun _ _ => false)
          (fun s _ => (6 * len s, 11)%Z) (fun _ => true) no_save_error (fun _ => false)
          (fun _ => NoReply (RequestException (py "no network")))
          (py "20240101_000000").

(** A world with the four credentials set, where the upload is answered
    by [upload] and the creation of the post by [tweet]. *)
Definition online_world (upload tweet : reply) : World :=
  mkworld (fun key => if existsb (pystr_eqb key) credential_names
                      then Some (py "secret") else None)
          sample_files (fun _ => false) (fun _ _ => false)
          (fun s _ => (6 * len s, 11)%Z) (fun _ => true) no_save_error (fun _ => true)
          (fun req => if pystr_eqb (req_url req) upload_url then upload else tweet)
          (py "20240101_000000").

Definition upload_ok : reply :=
  Reply (mkresponse 200 (py "{...}") (Some (JObject (VStr (py "710511363345354753")) (py "{...}")))).

Definition upload_500 : reply :=
  Reply (mkresponse 500 (py "Internal Server Error") None).

Definition tweet_403 : reply :=
  Reply (mkresponse 403 (py "Forbidden") None).

Definition tweet_201 : reply :=
  Reply (mkresponse 201 (py "{...}") (Some (JObject VNone (py "{'data': {...}}")))).

(** ** Further predicates *)

(** One centred line of the card, as [center_draw] draws it. *)
Definition card_line (w : World) (s : pystr) (fnt : font) (y : Z) : draw_op :=
  DrawText ((card_width - fst (textsize w s fnt)) / 2, y)%Z s text_color fnt.

(** The card [generate_image] draws for a record with string fields. *)
Definition card (w : World) (tool : dict) : image :=
  let '(title_font, subtitle_font, url_font) :=
    load_fonts w (getenv w (py "AI_TOOL_FONT")) in
  mkimage (py "RGB") (card_width, card_height) bg_color
          [card_line w (name_of tool) title_font 168;
           card_line w (tagline_of tool) subtitle_font 303;
           card_line w (url_of tool) url_font 438].

(** The text starts as far from the left edge as it ends from the right
    edge, up to one pixel. *)
Definition centred (w : World) (op : draw_op) : Prop :=
  match op with
  | DrawText (x, _) s _ fnt =>
      (0 <= card_width - fst (textsize w s fnt) - 2 * x <= 1)%Z
  end.

Definition op_y (op : draw_op) : Z :=
  match op with DrawText (_, y) _ _ _ => y end.

(** The name of the image file of a run. *)
Definition image_filename (w : World) : pystr :=
  py "ai_tool_card_" ++ now w ++ py ".png".

(** A world that cannot save the card. *)
Definition readonly_world : World :=
  mkworld (fun _ => None) sample_files (fun _ => false) (fun _ _ => false)
          (fun s _ => (6 * len s, 11)%Z) (fun _ => false) no_save_error (fun _ => false)
          (fun _ => NoReply (RequestException (py "no network")))
          (py "20240101_000000").

(** A world whose credentials are set to the empty string. *)
Definition blank_credentials_world : World :=
  mkworld (fun _ => Some []) sample_files (fun _ => false) (fun _ _ => false)
          (fun s _ => (6 * len s, 11)%Z) (fun _ => true) no_save_error (fun _ => false)
          (fun _ => NoReply (RequestException (py "no network")))
          (py "20240101_000000").


(** A world without any file. *)
Definition empty_world : World :=
  mkworld (fun _ => None) (fun _ => None) (fun _ => false) (fun _ _ => false)
          (fun s _ => (6 * len s, 11)%Z) (fun _ => true) no_save_error (fun _ => false)
          (fun _ => NoReply (RequestException (py "no network")))
          (py "20240101_000000").

(** ** Rows as the table holds them *)

(** The field of [row] in the last of the columns called [key] that the
    row reaches. *)
Fixpoint last_field (key : pystr) (fieldnames row : list pystr) : option pystr :=
  match fieldnames, row with
  | k :: fieldnames', v :: row' =>
      match last_field key fieldnames' row' with
      | Some x => Some x
      | None => if pystr_eqb k key then Some v else None
      end
  | _, _ => None
  end.

(** What a row holds under the column name [key]: nothing when no
    column has that name; [None] when a column of that name lies beyond
    the end of the row; otherwise the field in the last column of that
    name. *)
Definition column_value (fieldnames row : list pystr) (key : pystr) : option pyval :=
  if existsb (pystr_eqb key) (skipn (length row) fieldnames) then Some VNone
  else option_map VStr (last_field key fieldnames row).

(** The row has a name: its field in the [name] column is there and is
    not empty. *)
Definition named_row (fieldnames row : list pystr) : bool :=
  match column_value fieldnames row (py "name") with
  | Some (VStr (_ :: _)) => true
  | _ => false
  end.

(** [r] is the record of [row]: it maps every column name to what the
    row holds under it, and keeps the fields beyond the header under the
    key [None]. *)
Definition record_of_row (fieldnames row : list pystr) (r : dict) : Prop :=
  (forall key, lookup key (fields r) = column_value fieldnames row key)
  /\ restkey_entry r
     = (if (length fieldnames <? length row)%nat
        then Some (skipn (length fieldnames) row) else None).

(** ** Text the fonts can draw *)

(** Measuring the text with the font returns. *)
Definition measures (w : World) (s : pystr) (fnt : font) : bool :=
  match draw_textsize w s fnt with
  | Ret _ => true
  | _ => false
  end.

(** The three lines of the record can be measured with the fonts that
    [generate_image] resolves. *)
Definition drawable (w : World) (tool : dict) : bool :=
  let '(title_font, subtitle_font, url_font) :=
    load_fonts w (getenv w (py "AI_TOOL_FONT")) in
  measures w (name_of tool) title_font
  && measures w (tagline_of tool) subtitle_font
  && measures w (url_of tool) url_font.

(** A record whose name is in katakana. *)
Definition katakana_tool : dict :=
  record [0x30C4; 0x30FC; 0x30EB]%N (py "bar") (py "a tool") (py "http://x.test").

(** * Proofs *)

(** ** Lists and lengths *)

Lemma len_app {A} (a b : list A) : len (a ++ b) = (len a + len b)%Z.
Proof. unfold len. rewrite length_app. lia. Qed.

Lemma len_nonneg {A} (a : list A) : (0 <= len a)%Z.
Proof. unfold len. lia. Qed.

Lemma len_cons {A} (x : A) (a : list A) : len (x :: a) = (1 + len a)%Z.
Proof. unfold len. simpl length. lia. Qed.

Lemma len_nil {A} : len (@nil A) = 0%Z.
Proof. reflexivity. Qed.

Lemma sum_len_concat_rev (l : list pystr) :
  len (concat (rev l)) = Textwrap.sum_len l.
Proof.
  induction l as [|c l IH]; simpl; [reflexivity|].
  rewrite concat_app, len_app, IH. simpl. rewrite app_nil_r. lia.
Qed.

Lemma sum_len_nonneg l : (0 <= Textwrap.sum_len l)%Z.
Proof. rewrite <- sum_len_concat_rev. apply len_nonneg. Qed.

Lemma slice_to_from {A} (s : list A) e : slice_to s e ++ slice_from s e = s.
Proof. unfold slice_to, slice_from. destruct (e <? 0)%Z; apply firstn_skipn. Qed.

Lemma len_slice_to {A} (s : list A) e :
  (0 <= e)%Z -> len (slice_to s e) = Z.min e (len s).
Proof.
  intros He. unfold slice_to, len.
  destruct (e <? 0)%Z eqn:E; [lia|].
  rewrite length_firstn. lia.
Qed.

(** *** White space *)

Lemma lstrip_nil_iff s : lstrip s = [] <-> forallb isspace s = true.
Proof.
  induction s as [|c r IH]; simpl; [tauto|].
  destruct (isspace c); simpl; [assumption|]. split; discriminate.
Qed.

Lemma lstrip_head s c r : lstrip s = c :: r -> isspace c = false.
Proof.
  induction s as [|x s IH]; simpl; [discriminate|].
  destruct (isspace x) eqn:E; [assumption|]. intros H. inversion H; subst. assumption.
Qed.

Lemma forallb_rev {A} (p : A -> bool) l : forallb p (rev l) = forallb p l.
Proof.
  induction l as [|x l IH]; simpl; [reflexivity|].
  rewrite forallb_app, IH. simpl. rewrite andb_true_r. apply andb_comm.
Qed.

Lemma blank_forallb s : blank s = forallb isspace s.
Proof.
  unfold blank, strip, rstrip.
  destruct (lstrip s) as [|c r] eqn:E.
  - simpl. symmetry. apply lstrip_nil_iff. assumption.
  - pose proof (lstrip_head _ _ _ E) as Hc.
    assert (H1 : forallb isspace s = false).
    { destruct (forallb isspace s) eqn:F; [|reflexivity].
      apply lstrip_nil_iff in F. congruence. }
    rewrite H1.
    destruct (lstrip (rev (c :: r))) as [|y t] eqn:E2.
    + apply lstrip_nil_iff in E2. rewrite forallb_rev in E2. simpl in E2.
      rewrite Hc in E2. discriminate.
    + destruct (rev (y :: t)) eqn:E3; [|reflexivity].
      apply (f_equal (@length _)) in E3. rewrite length_rev in E3. discriminate.
Qed.

Lemma lstrip_idempotent s : lstrip (lstrip s) = lstrip s.
Proof.
  induction s as [|c r IH]; simpl; [reflexivity|].
  destruct (isspace c) eqn:E; [assumption|]. simpl. rewrite E. reflexivity.
Qed.

Lemma lstrip_spaces s : exists sp, s = sp ++ lstrip s /\ forallb isspace sp = true.
Proof.
  induction s as [|c r (sp & E & H)]; simpl; [exists []; auto|].
  destruct (isspace c) eqn:Ec.
  - exists (c :: sp). simpl. rewrite Ec, <- E. auto.
  - exists []. auto.
Qed.

Lemma strip_idempotent s : strip (strip s) = strip s.
Proof.
  unfold strip, rstrip. set (t := lstrip s).
  destruct (lstrip_spaces (rev t)) as (sp & E & _).
  assert (Et : t = rev (lstrip (rev t)) ++ rev sp).
  { rewrite <- rev_app_distr, <- E, rev_involutive. reflexivity. }
  assert (Hu : lstrip (rev (lstrip (rev t))) = rev (lstrip (rev t))).
  { destruct (rev (lstrip (rev t))) as [|x u'] eqn:Eu; [reflexivity|].
    simpl in Et. unfold t in Et. apply lstrip_head in Et. simpl. rewrite Et. reflexivity. }
  rewrite Hu, rev_involutive, lstrip_idempotent. reflexivity.
Qed.

Lemma spacefree_not_blank s : s <> [] -> spacefree s = true -> blank s = false.
Proof.
  rewrite blank_forallb. destruct s as [|c r]; [congruence|]. simpl.
  intros _ H. apply andb_prop in H. destruct H as [H _].
  destruct (isspace c); [discriminate|reflexivity].
Qed.

Lemma spacefree_firstn s n : spacefree s = true -> spacefree (firstn n s) = true.
Proof.
  revert n. induction s as [|c r IH]; intros [|n] H; simpl in *; try reflexivity.
  apply andb_prop in H. destruct H as [H1 H2]. rewrite H1. simpl. apply IH. assumption.
Qed.

Section WrapFacts.

Variable width : Z.
Variable placeholder : pystr.
Hypothesis width_pos : (1 <= width)%Z.

(** The inner loop takes a prefix of the chunks. *)
Lemma take_fitting_spec chunks : forall cur_line cur_len cl n ch,
  Textwrap.take_fitting width chunks cur_line cur_len = (cl, n, ch) ->
  cur_len = Textwrap.sum_len cur_line ->
  exists k, cl = rev (firstn k chunks) ++ cur_line
            /\ ch = skipn k chunks
            /\ (k <= length chunks)%nat
            /\ n = Textwrap.sum_len cl
            /\ (cur_len <= width -> n <= width)%Z
            /\ match ch with
               | c :: _ => (n + len c > width)%Z
               | [] => True
               end.
Proof.
  induction chunks as [|c rest IH]; simpl; intros cur_line cur_len cl n ch H Hinv.
  - inversion H; subst. exists 0%nat. simpl. repeat split; auto.
  - destruct (cur_len + len c <=? width)%Z eqn:E.
    + apply IH in H; [|simpl; lia].
      destruct H as (k & -> & -> & Hk & Hn & Hw & Hc).
      exists (S k). simpl. rewrite <- app_assoc. simpl.
      split; [reflexivity|]. split; [reflexivity|]. split; [lia|].
      split; [assumption|]. split; [|assumption].
      intros _. apply Hw. lia.
    + inversion H; subst. exists 0%nat. simpl. repeat split; auto; try lia.
Qed.

Lemma chunks_size_skipn k : forall chunks,
  (k <= length chunks)%nat ->
  (Textwrap.chunks_size (skipn k chunks) + k <= Textwrap.chunks_size chunks)%nat.
Proof.
  induction k as [|k IH]; intros [|c chunks] Hk; simpl in Hk; simpl skipn; try lia.
  change (Textwrap.chunks_size (c :: chunks))
    with (S (length c + Textwrap.chunks_size chunks)).
  assert (Hk' : (k <= length chunks)%nat) by lia.
  specialize (IH chunks Hk'). lia.
Qed.

Lemma rfind_from_bounds c s : forall i found,
  (-1 <= found < i)%Z ->
  (-1 <= Textwrap.rfind_from c i s found < i + len s)%Z
  \/ (s = [] /\ Textwrap.rfind_from c i s found = found).
Proof.
  induction s as [|x r IH]; intros i found Hf; [right; split; reflexivity|].
  left. rewrite len_cons. cbn [Textwrap.rfind_from].
  assert (Hf' : (-1 <= (if (x =? c)%N then i else found) < i + 1)%Z)
    by (destruct (x =? c)%N; lia).
  destruct (IH (i + 1)%Z _ Hf') as [H|[-> H]].
  - lia.
  - rewrite H. rewrite len_nil. lia.
Qed.

Lemma rfind_lt c s : (Textwrap.rfind c s < Z.max 0 (len s))%Z /\ (-1 <= Textwrap.rfind c s)%Z.
Proof.
  unfold Textwrap.rfind.
  destruct (rfind_from_bounds c s 0%Z (-1)%Z) as [H|[-> H]]; [lia| |].
  - pose proof (len_nonneg s). lia.
  - rewrite H. unfold len. simpl. lia.
Qed.

Lemma rfind_from_split c s : forall i found r,
  Textwrap.rfind_from c i s found = r -> r <> found -> (found < i)%Z ->
  exists a b, s = a ++ c :: b /\ (len a = r - i)%Z.
Proof.
  induction s as [|x s IH]; intros i found r H Hne Hlt.
  - simpl in H. congruence.
  - cbn [Textwrap.rfind_from] in H.
    destruct (Z.eq_dec r (if (x =? c)%N then i else found)) as [E|E].
    + destruct (x =? c)%N eqn:Ex; [|congruence].
      apply N.eqb_eq in Ex. subst x.
      exists [], s. split; [reflexivity|]. rewrite len_nil. lia.
    + destruct (IH _ _ _ H E) as (a & b & -> & Ha).
      { destruct (x =? c)%N; lia. }
      exists (x :: a), b. split; [reflexivity|]. rewrite len_cons. lia.
Qed.

Lemma rfind_split c s r :
  Textwrap.rfind c s = r -> (0 <= r)%Z ->
  exists a b, s = a ++ c :: b /\ len a = r.
Proof.
  intros H Hr. unfold Textwrap.rfind in H.
  destruct (rfind_from_split c s 0%Z (-1)%Z r H) as (a & b & E & Ha); try lia.
  exists a, b. split; [assumption|lia].
Qed.

(** What [_handle_long_word] cuts off a chunk that is longer than the
    width. *)
Lemma handle_long_word_spec c rest cur_line cur_len cl ch :
  Textwrap._handle_long_word (c :: rest) cur_line cur_len width = (cl, ch) ->
  (0 <= cur_len <= width)%Z -> (len c > width)%Z ->
  exists e, cl = slice_to c e :: cur_line /\ ch = slice_from c e :: rest
            /\ (0 <= e <= width - cur_len)%Z /\ (e < len c)%Z
            /\ (e = width - cur_len \/ ends_with_hyphen (slice_to c e))%Z.
Proof.
  unfold Textwrap._handle_long_word. intros H Hcur Hlong.
  destruct (width <? 1)%Z eqn:E1; [lia|].
  destruct (len c >? width - cur_len)%Z eqn:E2; [|lia].
  set (sl := (width - cur_len)%Z) in *.
  set (hy := Textwrap.rfind Textwrap.hyphen (slice_to c sl)) in *.
  destruct ((hy >? 0)%Z && existsb (fun c0 => negb (c0 =? Textwrap.hyphen)%N) (slice_to c hy)) eqn:E3.
  - apply andb_prop in E3. destruct E3 as [E3 _].
    inversion H; subst cl ch; clear H.
    exists (hy + 1)%Z.
    destruct (rfind_lt Textwrap.hyphen (slice_to c sl)) as [Hlt _]. fold hy in Hlt.
    rewrite len_slice_to in Hlt by lia.
    destruct (rfind_split Textwrap.hyphen (slice_to c sl) hy eq_refl) as (a & b & Eab & Ha); [lia|].
    split; [reflexivity|]. split; [reflexivity|]. split; [lia|]. split; [lia|].
    right. exists a.
    pose proof (slice_to_from c sl) as Hc. rewrite Eab in Hc.
    unfold slice_to. destruct (hy + 1 <? 0)%Z eqn:E4; [lia|].
    rewrite <- Hc. rewrite <- app_assoc. simpl.
    replace (Z.to_nat (hy + 1)) with (length a + 1)%nat by (unfold len in Ha; lia).
    rewrite firstn_app_2. simpl. reflexivity.
  - inversion H; subst cl ch; clear H.
    exists sl. split; [reflexivity|]. split; [reflexivity|]. split; [lia|]. split; [lia|].
    left. reflexivity.
Qed.

Lemma sum_len_cons c l : Textwrap.sum_len (c :: l) = (len c + Textwrap.sum_len l)%Z.
Proof. reflexivity. Qed.

Lemma chunks_size_cons c l :
  Textwrap.chunks_size (c :: l) = S (length c + Textwrap.chunks_size l).
Proof. reflexivity. Qed.

Lemma fill_line_shape chunks cl n ch :
  chunks <> [] ->
  Textwrap.fill_line width chunks [] = (cl, n, ch) ->
  exists k cl2,
    (k <= length chunks)%nat
    /\ (cl = cl2 \/ exists b, cl2 = b :: cl /\ blank b = true)
    /\ n = Textwrap.sum_len cl
    /\ (Textwrap.sum_len cl2 <= width)%Z
    /\ line_shape width chunks k cl2 ch.
Proof.
  intros Hne H. unfold Textwrap.fill_line in H.
  assert (E0 : match chunks with
               | c :: rest => if blank c && negb (is_empty (@nil pystr)) then rest else chunks
               | [] => chunks end = chunks).
  { destruct chunks; [reflexivity|]. simpl. rewrite andb_false_r. reflexivity. }
  rewrite E0 in H. clear E0.
  change (is_empty (@nil pystr)) with true in H. cbv iota in H.
  change (len Textwrap.initial_indent) with 0%Z in H.
  rewrite Z.sub_0_r in H.
  destruct (Textwrap.take_fitting width chunks [] 0) as [[cl1 n1] ch1] eqn:ET.
  destruct (take_fitting_spec chunks _ _ _ _ _ ET eq_refl)
    as (k & Ecl1 & Ech1 & Hk & Hn1 & Hw1 & Hhead).
  rewrite app_nil_r in Ecl1.
  assert (Hn1w : (n1 <= width)%Z) by (apply Hw1; lia).
  assert (Hn1pos : (0 <= n1)%Z) by (rewrite Hn1; apply sum_len_nonneg).
  (* the final dropping of a blank chunk *)
  assert (Hdrop : forall cl2 n2 ch2,
     n2 = Textwrap.sum_len cl2 ->
     match cl2 with
     | l :: r => if blank l then (r, (n2 - len l)%Z, ch2) else (cl2, n2, ch2)
     | [] => (cl2, n2, ch2)
     end = (cl, n, ch) ->
     (cl = cl2 \/ exists b, cl2 = b :: cl /\ blank b = true)
     /\ n = Textwrap.sum_len cl /\ ch = ch2).
  { intros cl2 n2 ch2 Hn2 Hd. destruct cl2 as [|l r].
    - inversion Hd; subst. auto.
    - destruct (blank l) eqn:Eb; inversion Hd; subst.
      + split; [right; exists l; auto|]. split; [|reflexivity].
        rewrite sum_len_cons. lia.
      + auto. }
  destruct ch1 as [|c rest].
  - (* every chunk was taken *)
    apply Hdrop in H; [|assumption]. destruct H as (Hcl & Hn & Hch).
    exists k, cl1. split; [assumption|]. split; [assumption|]. split; [assumption|].
    split; [lia|].
    subst ch. apply shape_whole; [|assumption|congruence|exact I].
    destruct k; [|lia]. simpl in Ech1. congruence.
  - destruct (len c >? width)%Z eqn:Elong.
    + destruct (Textwrap._handle_long_word (c :: rest) cl1 n1 width) as [cl2 ch2] eqn:EH.
      destruct (handle_long_word_spec c rest cl1 n1 cl2 ch2 EH) as (e & -> & -> & He & Hec & Hend);
        [lia|lia|].
      apply (Hdrop (slice_to c e :: cl1)) in H; [|reflexivity].
      destruct H as (Hcl & Hn & Hch).
      exists k, (slice_to c e :: cl1).
      split; [assumption|]. split; [assumption|]. split; [assumption|].
      split.
      { rewrite sum_len_cons, len_slice_to by lia. lia. }
      apply shape_piece with (c := c) (rest := rest) (e := e);
        [congruence|congruence|congruence|lia|lia| |].
      * intros ->. simpl in Ecl1. subst cl1. simpl in Hn1. subst n1.
        destruct Hend as [Hend|(p & Hp)]; [lia|].
        assert (len (slice_to c e) >= 1)%Z.
        { rewrite Hp, len_app. pose proof (len_nonneg p). unfold len at 2. simpl. lia. }
        rewrite len_slice_to in H by lia. lia.
      * destruct Hend as [Hend|Hend]; [left|right; assumption]. subst cl1. lia.
    + apply Hdrop in H; [|assumption]. destruct H as (Hcl & Hn & Hch).
      exists k, cl1. split; [assumption|]. split; [assumption|]. split; [assumption|].
      split; [lia|].
      subst ch. apply shape_whole; [|assumption|congruence|lia].
      destruct k; [|lia]. simpl in Ecl1. subst cl1. simpl in Hn1. lia.
Qed.

Lemma len_slice_from {A} (s : list A) e :
  (0 <= e)%Z -> len (slice_from s e) = (len s - Z.min e (len s))%Z.
Proof.
  intros He. pose proof (slice_to_from s e) as H.
  apply (f_equal len) in H. rewrite len_app, len_slice_to in H by assumption. lia.
Qed.

Lemma line_shape_size chunks k cl2 ch :
  line_shape width chunks k cl2 ch -> (k <= length chunks)%nat ->
  (Textwrap.chunks_size ch < Textwrap.chunks_size chunks)%nat.
Proof.
  intros [Hk _ -> _|c rest e Hs _ -> He _ He1 _] Hle.
  - pose proof (chunks_size_skipn k chunks Hle). lia.
  - pose proof (chunks_size_skipn k chunks Hle) as Hsz.
    rewrite Hs in Hsz. rewrite chunks_size_cons in *.
    pose proof (len_slice_from c e ltac:(lia)) as Hl. unfold len in Hl, He, He1.
    destruct k; [specialize (He1 eq_refl)|]; lia.
Qed.

Lemma line_shape_concat chunks k cl2 ch :
  line_shape width chunks k cl2 ch -> concat (rev cl2) ++ concat ch = concat chunks.
Proof.
  intros [_ -> -> _|c rest e Hs -> -> _ _ _ _].
  - rewrite rev_involutive, <- concat_app, firstn_skipn. reflexivity.
  - simpl. rewrite rev_involutive, concat_app. simpl. rewrite app_nil_r, <- app_assoc.
    rewrite (app_assoc (slice_to c e)), slice_to_from.
    change (c ++ concat rest) with (concat (c :: rest)).
    rewrite <- Hs, <- concat_app, firstn_skipn. reflexivity.
Qed.

Lemma truncate_line_spec cl : forall n cl',
  Textwrap.truncate_line placeholder width cl n = Some cl' ->
  n = Textwrap.sum_len cl ->
  exists dropped l tl,
    cl = dropped ++ l :: tl /\ cl' = placeholder :: l :: tl
    /\ blank l = false
    /\ (Textwrap.sum_len (l :: tl) + len placeholder <= width)%Z.
Proof.
  induction cl as [|l r IH]; cbn [Textwrap.truncate_line]; intros n cl' H Hn; [discriminate|].
  destruct (negb (blank l) && (n + len placeholder <=? width)%Z) eqn:E.
  - inversion H; subst cl'. apply andb_prop in E. destruct E as [E1 E2].
    exists [], l, r. split; [reflexivity|]. split; [reflexivity|].
    split; [destruct (blank l); [discriminate|reflexivity]|].
    rewrite sum_len_cons. subst n. rewrite sum_len_cons in E2. lia.
  - apply IH in H; [|subst n; rewrite sum_len_cons; lia].
    destruct H as (d & l' & tl & -> & -> & Hb & Hs).
    exists (l :: d), l', tl. auto.
Qed.

Lemma wrap_loop_nil fuel lines :
  Textwrap.wrap_loop width placeholder fuel [] lines = Ret lines.
Proof. destruct fuel; reflexivity. Qed.

(** One pass of the outer loop, started with no line yet. *)
Lemma wrap_loop_step fuel chunks :
  chunks <> [] ->
  Textwrap.wrap_loop width placeholder (S fuel) chunks [] =
  let '(cl, n, ch) := Textwrap.fill_line width chunks [] in
  match cl with
  | [] => Textwrap.wrap_loop width placeholder fuel ch []
  | _ :: _ =>
      if Textwrap.nothing_left ch && (n <=? width)%Z
      then Textwrap.wrap_loop width placeholder fuel ch [concat (rev cl)]
      else match Textwrap.truncate_line placeholder width cl n with
           | Some cl' => Ret [concat (rev cl')]
           | None => Ret [lstrip placeholder]
           end
  end.
Proof.
  intros Hne. destruct chunks as [|c cs]; [congruence|].
  cbn [Textwrap.wrap_loop].
  change (is_empty (@nil pystr)) with true. cbv iota.
  change (len Textwrap.initial_indent) with 0%Z. rewrite Z.sub_0_r.
  destruct (Textwrap.fill_line width (c :: cs) []) as [[cl n] ch].
  destruct cl; [reflexivity|].
  change (len (@nil pystr) + 1 <? Textwrap.max_lines)%Z with false.
  cbn [orb rev app Textwrap.initial_indent]. reflexivity.
Qed.

(** Once a line is stored and nothing but white space is left, the loop
    stops with that line. *)
Lemma wrap_loop_after_line fuel ch l :
  Textwrap.nothing_left ch = true ->
  (Textwrap.chunks_size ch < fuel)%nat ->
  Textwrap.wrap_loop width placeholder fuel ch [l] = Ret [l].
Proof.
  intros Hn Hf. destruct ch as [|c [|c' ch]]; [apply wrap_loop_nil| |discriminate].
  simpl in Hn. destruct fuel as [|fuel]; [lia|].
  cbn [Textwrap.wrap_loop].
  unfold Textwrap.fill_line. rewrite Hn. simpl. apply wrap_loop_nil.
Qed.

(** Termination and the width bound, for any list of chunks. *)
Lemma wrap_loop_total fuel : forall chunks,
  (len (lstrip placeholder) <= width)%Z ->
  (Textwrap.chunks_size chunks < fuel)%nat ->
  exists lines,
    Textwrap.wrap_loop width placeholder fuel chunks [] = Ret lines
    /\ (lines = [] \/ exists l, lines = [l] /\ (len l <= width)%Z).
Proof.
  induction fuel as [|fuel IH]; intros chunks Hph Hf; [lia|].
  destruct chunks as [|c cs] eqn:Ec.
  { exists []. split; [reflexivity|auto]. }
  rewrite <- Ec in *. assert (Hne : chunks <> []) by (subst; discriminate).
  rewrite (wrap_loop_step fuel chunks Hne).
  destruct (Textwrap.fill_line width chunks []) as [[cl n] ch] eqn:EF.
  destruct (fill_line_shape chunks cl n ch Hne EF) as (k & cl2 & Hk & Hcl & Hn & Hw & Hshape).
  pose proof (line_shape_size _ _ _ _ Hshape Hk) as Hsize.
  destruct cl as [|l0 cl0] eqn:Ecl.
  - apply IH; [assumption|lia].
  - rewrite <- Ecl in *.
    destruct (Textwrap.nothing_left ch && (n <=? width)%Z) eqn:Econd.
    + apply andb_prop in Econd. destruct Econd as [E1 E2].
      rewrite wrap_loop_after_line by (assumption || lia).
      eexists. split; [reflexivity|]. right. eexists. split; [reflexivity|].
      rewrite sum_len_concat_rev. lia.
    + destruct (Textwrap.truncate_line placeholder width cl n) as [cl'|] eqn:ET.
      * destruct (truncate_line_spec cl n cl' ET Hn) as (d & l & tl & _ & -> & _ & Hs).
        eexists. split; [reflexivity|]. right. eexists. split; [reflexivity|].
        rewrite sum_len_concat_rev, sum_len_cons. lia.
      * eexists. split; [reflexivity|]. right. eexists. split; [reflexivity|]. assumption.
Qed.

Lemma tail_of_rev_firstn {A} k (l d t : list A) :
  rev (firstn k l) = d ++ t -> rev t = firstn (length t) l.
Proof.
  intros H. apply (f_equal (@rev A)) in H. rewrite rev_involutive, rev_app_distr in H.
  rewrite <- (firstn_skipn k l) at 1. rewrite H, <- app_assoc.
  rewrite <- (length_rev t). rewrite firstn_app, firstn_all, Nat.sub_diag.
  simpl. rewrite app_nil_r. reflexivity.
Qed.

Lemma concat_nonempty (l : list pystr) :
  l <> [] -> Forall (fun c => c <> []) l -> concat l <> [].
Proof.
  destruct l as [|c l]; [congruence|]. intros _ H. inversion H; subst.
  simpl. destruct c; [congruence|discriminate].
Qed.

Lemma Forall_skipn {A} (P : A -> Prop) k : forall l, Forall P l -> Forall P (skipn k l).
Proof.
  induction k as [|k IH]; intros l H; [assumption|].
  destruct l; [constructor|]. inversion H; subst. simpl. auto.
Qed.

Lemma wrap_loop_first_line fuel chunks c1 rest :
  chunks = c1 :: rest ->
  Forall (fun c => c <> []) chunks ->
  spacefree c1 = true ->
  (1 <= len placeholder)%Z ->
  (len (lstrip placeholder) <= width)%Z ->
  (Textwrap.chunks_size chunks < S fuel)%nat ->
  exists l,
    Textwrap.wrap_loop width placeholder (S fuel) chunks [] = Ret [l]
    /\ (len l <= width)%Z
    /\ shortened placeholder chunks l
    /\ ((len (concat chunks) <= width)%Z ->
        exists tail, concat chunks = l ++ tail /\ forallb isspace tail = true).
Proof.
  intros Echunks Hall Hsf Hph1 Hph Hf.
  assert (Hne : chunks <> []) by (subst chunks; discriminate).
  assert (Hc1 : c1 <> []) by (subst chunks; inversion Hall; assumption).
  rewrite (wrap_loop_step fuel chunks Hne).
  destruct (Textwrap.fill_line width chunks []) as [[cl n] ch] eqn:EF.
  destruct (fill_line_shape chunks cl n ch Hne EF) as (k & cl2 & Hk & Hcl & Hn & Hw & Hshape).
  pose proof (line_shape_size _ _ _ _ Hshape Hk) as Hsize.
  pose proof (line_shape_concat _ _ _ _ Hshape) as Hcat.
  (* a text that fits is taken whole *)
  assert (Hfit : (len (concat chunks) <= width)%Z -> ch = []).
  { intros Hle. rewrite <- Hcat, len_app, sum_len_concat_rev in Hle.
    destruct Hshape as [_ _ _ Hhead|c rest' e Hs -> -> He Hlong _ _].
    - destruct ch as [|c ch']; [reflexivity|]. simpl in Hle. rewrite len_app in Hle.
      pose proof (len_nonneg (concat ch')). lia.
    - exfalso. rewrite sum_len_cons in Hle. simpl in Hle. rewrite !len_app in Hle.
      rewrite len_slice_to, len_slice_from in Hle by lia.
      pose proof (len_nonneg (concat rest')).
      pose proof (sum_len_nonneg (rev (firstn k chunks))). lia. }
  (* the chunks that remain are not empty *)
  assert (Hch : Forall (fun c => c <> []) ch).
  { destruct Hshape as [_ _ -> _|c rest' e Hs _ -> He _ _ _].
    - apply Forall_skipn. assumption.
    - pose proof (Forall_skipn _ k _ Hall) as Hsk. rewrite Hs in Hsk.
      inversion Hsk; subst. constructor; [|assumption].
      intros E. apply (f_equal len) in E. rewrite len_slice_from in E by lia.
      rewrite len_nil in E. lia. }
  (* the line holds at least the first chunk, or a piece of it *)
  assert (Hcl2 : exists x y, cl2 = x ++ [y] /\ y <> [] /\ spacefree y = true).
  { destruct Hshape as [Hk1 -> _ _|c rest' e Hs -> _ He _ He1 _].
    - subst chunks. destruct k; [lia|]. simpl. exists (rev (firstn k rest)), c1. auto.
    - subst chunks. destruct k.
      + simpl in Hs. inversion Hs; subst c rest'. simpl. exists [], (slice_to c1 e).
        split; [reflexivity|]. split.
        * intros E. apply (f_equal len) in E. rewrite len_slice_to, len_nil in E by lia.
          specialize (He1 eq_refl). lia.
        * unfold slice_to. destruct (e <? 0)%Z; apply spacefree_firstn; assumption.
      + simpl. exists (slice_to c e :: rev (firstn k rest)), c1. auto. }
  destruct Hcl2 as (x & y & Ex & Hlast_ne & Hlast_sf).
  assert (Hclne : cl <> []).
  { intros ->. destruct Hcl as [<-|(b & -> & Hb)].
    - destruct x; discriminate.
    - destruct x as [|x0 [|x1 x]]; inversion Ex; subst.
      rewrite (spacefree_not_blank y Hlast_ne Hlast_sf) in Hb. discriminate. }
  destruct cl as [|l0 cl0] eqn:Ecl; [congruence|]. rewrite <- Ecl in *.
  assert (Hnw : (n <= width)%Z).
  { destruct Hcl as [<-|(b & -> & Hb)]; [lia|].
    rewrite sum_len_cons in Hw. pose proof (len_nonneg b). lia. }
  destruct (Textwrap.nothing_left ch && (n <=? width)%Z) eqn:Econd.
  - apply andb_prop in Econd. destruct Econd as [E1 E2].
    rewrite wrap_loop_after_line by (assumption || lia).
    eexists. split; [reflexivity|].
    split; [rewrite sum_len_concat_rev; lia|].
    assert (Htail : forallb isspace (concat ch) = true).
    { destruct ch as [|c [|c' ch']]; [reflexivity| |discriminate].
      simpl in E1. simpl. rewrite app_nil_r. rewrite <- blank_forallb. assumption. }
    assert (Hwh : exists tail, concat chunks = concat (rev cl) ++ tail
                               /\ forallb isspace tail = true).
    { destruct Hcl as [<-|(b & -> & Hb)].
      - exists (concat ch). auto.
      - exists (b ++ concat ch). split.
        + rewrite <- Hcat. simpl. rewrite concat_app. simpl.
          rewrite app_nil_r, <- app_assoc. reflexivity.
        + rewrite forallb_app, <- blank_forallb, Hb. assumption. }
    split; [|intros _; assumption].
    destruct Hwh as (tail & H1 & H2). apply short_whole with (tail := tail); assumption.
  - assert (Hleft : Textwrap.nothing_left ch = false).
    { destruct (Textwrap.nothing_left ch); [|reflexivity].
      simpl in Econd. apply Z.leb_gt in Econd. lia. }
    assert (Hchne : concat ch <> []).
    { apply concat_nonempty; [|assumption]. intros ->. discriminate. }
    destruct (Textwrap.truncate_line placeholder width cl n) as [cl'|] eqn:ET.
    + destruct (truncate_line_spec cl n cl' ET Hn) as (d & l & tl & Ed & -> & Hb & Hs).
      eexists. split; [reflexivity|].
      split; [rewrite sum_len_concat_rev, sum_len_cons; lia|].
      split; [|intros Hle; apply Hfit in Hle; subst ch; discriminate].
      assert (Ed2 : exists d2, cl2 = d2 ++ l :: tl).
      { destruct Hcl as [<-|(b & -> & _)]; [exists d; assumption|].
        exists (b :: d). rewrite Ed. reflexivity. }
      destruct Ed2 as (d2 & Ed2).
      assert (Hline : concat (rev (placeholder :: l :: tl))
                      = concat (rev (l :: tl)) ++ placeholder).
      { change (placeholder :: l :: tl) with ([placeholder] ++ l :: tl).
        rewrite rev_app_distr, concat_app. simpl. rewrite app_nil_r. reflexivity. }
      assert (Hcut : concat chunks = concat (rev (l :: tl)) ++ (concat (rev d2) ++ concat ch)).
      { rewrite <- Hcat, Ed2, rev_app_distr, concat_app, <- app_assoc. reflexivity. }
      assert (Hcutne : concat (rev d2) ++ concat ch <> []).
      { intros E. apply app_eq_nil in E. tauto. }
      (* a tail of whole chunks *)
      assert (Hwhole : forall d3, rev (firstn k chunks) = d3 ++ l :: tl ->
                shortened placeholder chunks (concat (rev (placeholder :: l :: tl)))).
      { intros d3 E3. pose proof (tail_of_rev_firstn _ _ _ _ E3) as Et.
        apply short_chunks with (j := length (l :: tl)).
        - simpl. lia.
        - rewrite Hline, Et. reflexivity.
        - rewrite Et in Hcut.
          rewrite <- (firstn_skipn (length (l :: tl)) chunks) in Hcut at 1.
          rewrite concat_app in Hcut. apply app_inv_head in Hcut.
          rewrite Hcut. assumption.
        - assert (En : nth (length (l :: tl) - 1) chunks [] = l).
          { rewrite <- (firstn_skipn (length (l :: tl)) chunks), <- Et.
            rewrite app_nth1 by (rewrite length_rev; simpl; lia).
            simpl rev. rewrite app_nth2 by (rewrite length_rev; simpl; lia).
            rewrite length_rev. simpl. rewrite Nat.sub_0_r, Nat.sub_diag. reflexivity. }
          rewrite En. assumption. }
      destruct Hshape as [_ E2 _ _|c rest' e Hsk E2 _ He _ He1 Hend].
      * apply (Hwhole d2). congruence.
      * destruct d2 as [|y0 d3].
        -- simpl in Ed2. rewrite E2 in Ed2. inversion Ed2; subst l tl.
           destruct Hend as [Hend|Hend].
           ++ rewrite sum_len_cons, len_slice_to in Hs by lia. lia.
           ++ apply short_hyphen with (kept := concat (rev (slice_to c e :: rev (firstn k chunks))))
                                      (cut := concat (rev []) ++ concat ch);
                [assumption|assumption|assumption|].
              destruct Hend as (p & Hp). simpl. rewrite concat_app. simpl.
              rewrite app_nil_r, Hp. eexists. rewrite app_assoc. reflexivity.
        -- apply (Hwhole d3). rewrite E2 in Ed2. inversion Ed2. reflexivity.
    + eexists. split; [reflexivity|]. split; [assumption|].
      split; [|intros Hle; apply Hfit in Hle; subst ch; discriminate].
      apply short_nothing; [reflexivity|assumption].
Qed.

End WrapFacts.

(** *** The chunks of [wordsep_re] *)

Section SplitFacts.

Variable uni_isalnum : char -> bool.
Variable uni_isdecimal : char -> bool.

Abbreviation match_len := (Textwrap.match_len uni_isalnum uni_isdecimal).
Abbreviation word_more := (Textwrap.word_more uni_isalnum uni_isdecimal).
Abbreviation emdash_ahead := (Textwrap.emdash_ahead uni_isalnum).
Abbreviation split_chunks_from := (Textwrap.split_chunks_from uni_isalnum uni_isdecimal).

Lemma count_while_le p s : (Textwrap.count_while p s <= length s)%nat.
Proof. induction s as [|c r IH]; simpl; [lia|]. destruct (p c); simpl; lia. Qed.

Lemma count_while_firstn p s :
  forallb p (firstn (Textwrap.count_while p s) s) = true.
Proof.
  induction s as [|c r IH]; simpl; [reflexivity|].
  destruct (p c) eqn:E; simpl; [rewrite E; assumption|reflexivity].
Qed.

Lemma forallb_last_eq (s : pystr) x :
  s <> [] -> forallb (fun c => (c =? x)%N) s = true -> exists p, s = p ++ [x].
Proof.
  intros Hne H. destruct (exists_last Hne) as (p & y & ->).
  rewrite forallb_app in H. apply andb_prop in H. destruct H as [_ H]. simpl in H.
  rewrite andb_true_r in H. apply N.eqb_eq in H. subst y. exists p. reflexivity.
Qed.

Lemma emdash_ahead_spec s k :
  emdash_ahead s = Some k ->
  (2 <= k <= length s)%nat
  /\ forallb (fun c => (c =? Textwrap.hyphen)%N) (firstn k s) = true.
Proof.
  unfold Textwrap.emdash_ahead.
  set (n := Textwrap.count_while (fun c => (c =? Textwrap.hyphen)%N) s).
  destruct (2 <=? n)%nat eqn:E; [|discriminate].
  destruct (skipn n s) as [|c r]; [discriminate|].
  destruct (Textwrap.is_word uni_isalnum c); [|discriminate].
  intros H. inversion H; subst k. apply Nat.leb_le in E.
  split; [split; [assumption|apply count_while_le]|apply count_while_firstn].
Qed.

Lemma hyphen_nonws : nonws Textwrap.hyphen = true.
Proof. reflexivity. Qed.

Lemma forallb_hyphen_nonws s :
  forallb (fun c => (c =? Textwrap.hyphen)%N) s = true -> forallb nonws s = true.
Proof.
  induction s as [|c r IH]; simpl; [reflexivity|]. intros H.
  apply andb_prop in H. destruct H as [H1 H2]. apply N.eqb_eq in H1. subst c.
  rewrite hyphen_nonws. simpl. auto.
Qed.

Lemma ends_with_hyphen_cons c s : ends_with_hyphen s -> ends_with_hyphen (c :: s).
Proof. intros (p & ->). exists (c :: p). reflexivity. Qed.

Lemma ends_with_hyphen_app a s : ends_with_hyphen s -> ends_with_hyphen (a ++ s).
Proof. intros (p & ->). exists (a ++ p). rewrite app_assoc. reflexivity. Qed.

(** The part of a word the third alternative takes after its first
    character. *)
Lemma word_more_spec s : forall before,
  let m := word_more before s in
  (m <= length s)%nat
  /\ forallb nonws (firstn m s) = true
  /\ (skipn m s = [] \/ ends_with_hyphen (firstn m s)
      \/ exists x t, skipn m s = x :: t
                     /\ (Textwrap.tw_whitespace x = true \/ x = Textwrap.hyphen)).
Proof.
  induction s as [|c r IH]; intros before.
  - cbn [Textwrap.word_more]. unfold Textwrap.hyphen_break. simpl.
    repeat split; auto.
  - cbn [Textwrap.word_more].
    destruct (Textwrap.hyphen_break uni_isalnum uni_isdecimal before (c :: r)) eqn:Eh.
    + unfold Textwrap.hyphen_break in Eh.
      apply andb_prop in Eh. destruct Eh as [Eh _].
      apply andb_prop in Eh. destruct Eh as [Eh _].
      apply N.eqb_eq in Eh. subst c. simpl.
      split; [lia|]. split; [reflexivity|].
      right. left. exists []. reflexivity.
    + destruct (Textwrap.tw_whitespace c) eqn:Ews.
      * simpl. split; [lia|]. split; [reflexivity|].
        right. right. exists c, r. auto.
      * destruct (Textwrap.prev_is (Textwrap.word_punct uni_isalnum) before
                  && is_some (emdash_ahead (c :: r))) eqn:Eem.
        -- apply andb_prop in Eem. destruct Eem as [_ Eem].
           destruct (emdash_ahead (c :: r)) as [k|] eqn:Ek; [|discriminate].
           destruct (emdash_ahead_spec _ _ Ek) as [[Hk _] Hall].
           destruct k; [lia|]. simpl in Hall. apply andb_prop in Hall.
           destruct Hall as [Hc _]. apply N.eqb_eq in Hc.
           simpl. split; [lia|]. split; [reflexivity|].
           right. right. exists c, r. auto.
        -- specialize (IH (c :: before)). cbv zeta in IH.
           destruct IH as (Hm & Hall & Hend).
           cbn [firstn skipn length forallb]. unfold nonws at 1. rewrite Ews.
           split; [lia|]. split; [assumption|].
           destruct Hend as [H|[H|H]]; [left; assumption| |right; right; assumption].
           right. left. apply ends_with_hyphen_cons. assumption.
Qed.

Lemma match_len_spec before c r :
  let s := c :: r in
  let n := match_len before s in
  (1 <= n <= length s)%nat
  /\ (forallb Textwrap.tw_whitespace (firstn n s) = true
      \/ (forallb nonws (firstn n s) = true
          /\ (skipn n s = [] \/ ends_with_hyphen (firstn n s)
              \/ exists x t, skipn n s = x :: t
                             /\ (Textwrap.tw_whitespace x = true \/ x = Textwrap.hyphen)))).
Proof.
  cbv zeta. unfold Textwrap.match_len.
  destruct (Textwrap.tw_whitespace c) eqn:Ews.
  - split.
    + split; [simpl; rewrite Ews; lia|apply count_while_le].
    + left. apply count_while_firstn.
  - destruct (if Textwrap.prev_is (Textwrap.word_punct uni_isalnum) before
              then emdash_ahead (c :: r) else None) as [k|] eqn:Ek.
    + assert (Ek' : emdash_ahead (c :: r) = Some k).
      { destruct (Textwrap.prev_is _ before); [assumption|discriminate]. }
      destruct (emdash_ahead_spec _ _ Ek') as [[Hk Hk2] Hall].
      split; [lia|]. right. split; [apply forallb_hyphen_nonws; assumption|].
      right. left. apply forallb_last_eq; [|assumption].
      destruct k; [lia|]. simpl. discriminate.
    + pose proof (word_more_spec r (c :: before)) as H. cbv zeta in H.
      destruct H as (Hm & Hall & Hend).
      cbn [firstn skipn length forallb]. unfold nonws at 1. rewrite Ews.
      split; [lia|]. right. split; [assumption|].
      destruct Hend as [H|[H|H]]; [left; assumption| |right; right; assumption].
      right. left. apply ends_with_hyphen_cons. assumption.
Qed.

Lemma tw_whitespace_isspace c : Textwrap.tw_whitespace c = true -> isspace c = true.
Proof.
  unfold Textwrap.tw_whitespace. intros H.
  repeat (apply orb_prop in H; destruct H as [H|H]);
    apply N.eqb_eq in H; subst c; reflexivity.
Qed.

Lemma split_chunks_concat fuel : forall before s,
  concat (split_chunks_from fuel before s) = s.
Proof.
  induction fuel as [|fuel IH]; intros before [|c r]; try reflexivity.
  - simpl. rewrite app_nil_r. reflexivity.
  - cbn [Textwrap.split_chunks_from concat]. rewrite IH. apply firstn_skipn.
Qed.

Lemma split_chunks_nonempty fuel : forall before s,
  Forall (fun c => c <> []) (split_chunks_from fuel before s).
Proof.
  induction fuel as [|fuel IH]; intros before [|c r]; try constructor; try discriminate;
    try constructor.
  - pose proof (match_len_spec before c r) as H. cbv zeta in H. destruct H as [[H1 _] _].
    destruct (match_len before (c :: r)); [lia|]. discriminate.
  - apply IH.
Qed.

(** In front of the cut that follows a chunk which is not white space
    lies a hyphen, or behind it white space or a hyphen. *)
Lemma split_chunks_boundary fuel : forall before s j,
  (length s <= fuel)%nat -> (0 < j)%nat ->
  let chunks := split_chunks_from fuel before s in
  blank (nth (j - 1) chunks []) = false ->
  concat (skipn j chunks) <> [] ->
  cut_point (concat (firstn j chunks)) (concat (skipn j chunks)).
Proof.
  induction fuel as [|fuel IH]; intros before s j Hf Hj chunks Hb Hcut.
  - destruct s; [|simpl in Hf; lia]. subst chunks. simpl in Hb.
    destruct (j - 1)%nat; discriminate.
  - destruct s as [|c r].
    { subst chunks. simpl in Hb. destruct (j - 1)%nat; discriminate. }
    subst chunks. cbn [Textwrap.split_chunks_from] in *.
    set (n := match_len before (c :: r)) in *.
    pose proof (match_len_spec before c r) as H. cbv zeta in H. fold n in H.
    destruct H as [[Hn1 Hn2] Hcls].
    destruct j as [|[|j]]; [lia| |].
    + cbn [firstn skipn concat nth Nat.sub] in *. rewrite app_nil_r.
      rewrite split_chunks_concat in Hcut.
      destruct Hcls as [Hws|[_ Hend]].
      * rewrite blank_forallb in Hb.
        assert (forallb isspace (firstn n (c :: r)) = true); [|congruence].
        apply forallb_forall. intros x Hx. apply tw_whitespace_isspace.
        rewrite forallb_forall in Hws. auto.
      * rewrite split_chunks_concat.
        destruct Hend as [H|[H|H]]; [congruence|left; assumption|right; assumption].
    + assert (Hlen : (length (skipn n (c :: r)) <= fuel)%nat).
      { rewrite length_skipn. lia. }
      specialize (IH (rev (firstn n (c :: r)) ++ before) (skipn n (c :: r)) (S j) Hlen
                     ltac:(lia)).
      cbv zeta in IH.
      replace (S (S j) - 1)%nat with (S (S j - 1)) in Hb by lia.
      cbn [nth] in Hb. cbn [skipn] in Hcut.
      specialize (IH Hb Hcut).
      change (firstn (S (S j)) (?a :: ?l)) with (a :: firstn (S j) l).
      cbn [skipn concat].
      destruct IH as [H|H]; [left|right; assumption].
      apply ends_with_hyphen_app. assumption.
Qed.

(** The first chunk of a text that starts with a character other than
    white space holds no white space of the wrapper. *)
Lemma split_chunks_first fuel before c r :
  Textwrap.tw_whitespace c = false ->
  exists c1 rest, split_chunks_from (S fuel) before (c :: r) = c1 :: rest
                  /\ forallb nonws c1 = true.
Proof.
  intros Hc. cbn [Textwrap.split_chunks_from].
  eexists. eexists. split; [reflexivity|].
  pose proof (match_len_spec before c r) as H. cbv zeta in H.
  destruct H as [[Hn1 Hn2] [Hws|[Hall _]]]; [|assumption].
  destruct (match_len before (c :: r)); [lia|]. simpl in Hws. rewrite Hc in Hws. discriminate.
Qed.

End SplitFacts.

(** *** The collapsed text [' '.join(text.split())] *)

Lemma spacefree_rev s : spacefree (rev s) = spacefree s.
Proof. apply forallb_rev. Qed.

Lemma split_from_words s : forall cur,
  spacefree cur = true -> Forall word_ok (split_from cur s).
Proof.
  induction s as [|c r IH]; intros cur Hcur; simpl.
  - destruct cur as [|x cur']; simpl; [constructor|].
    constructor; [|constructor]. split.
    + intros E. apply (f_equal (@length _)) in E. rewrite length_app in E. simpl in E. lia.
    + change (rev cur' ++ [x]) with (rev (x :: cur')). rewrite spacefree_rev. assumption.
  - destruct (isspace c) eqn:Ec.
    + destruct cur as [|x cur']; simpl; [apply IH; reflexivity|].
      constructor; [|apply IH; reflexivity]. split.
      * intros E. apply (f_equal (@length _)) in E. rewrite length_app in E. simpl in E. lia.
      * change (rev cur' ++ [x]) with (rev (x :: cur')). rewrite spacefree_rev. assumption.
    + apply IH. simpl. rewrite Ec. assumption.
Qed.

Lemma spacefree_normal w : spacefree w = true -> forallb normal_char w = true.
Proof.
  induction w as [|c r IH]; simpl; [reflexivity|]. intros H.
  apply andb_prop in H. destruct H as [H1 H2]. unfold normal_char at 1.
  rewrite H1. simpl. auto.
Qed.

Lemma join_normal words :
  Forall word_ok words -> forallb normal_char (join [32%N] words) = true.
Proof.
  induction 1 as [|w words [_ Hw] _ IH]; [reflexivity|].
  cbn [join]. destruct words as [|w' words'].
  - apply spacefree_normal. assumption.
  - rewrite forallb_app, spacefree_normal by assumption. simpl. exact IH.
Qed.

Lemma join_head words :
  Forall word_ok words -> words <> [] ->
  exists c r, join [32%N] words = c :: r /\ isspace c = false.
Proof.
  intros H Hne. destruct H as [|w words [Hw1 Hw2] _]; [congruence|].
  destruct w as [|c r]; [congruence|]. simpl in Hw2. apply andb_prop in Hw2.
  destruct Hw2 as [Hc _]. cbn [join].
  destruct words; [exists c, r|eexists c, _];
    (split; [reflexivity|destruct (isspace c); [discriminate|reflexivity]]).
Qed.

Lemma join_last words :
  Forall word_ok words -> words <> [] ->
  exists p x, join [32%N] words = p ++ [x] /\ isspace x = false.
Proof.
  induction 1 as [|w words [Hw1 Hw2] Hws IH]; intros Hne; [congruence|].
  cbn [join]. destruct words as [|w' words'].
  - destruct (exists_last Hw1) as (p & x & ->). exists p, x. split; [reflexivity|].
    unfold spacefree in Hw2. rewrite forallb_app in Hw2. apply andb_prop in Hw2.
    destruct Hw2 as [_ Hx]. simpl in Hx. destruct (isspace x); [discriminate|reflexivity].
  - destruct IH as (p & x & E & Hx); [discriminate|].
    exists (w ++ [32%N] ++ p), x. rewrite E. rewrite <- !app_assoc. auto.
Qed.

Lemma join_nil_words words :
  Forall word_ok words -> join [32%N] words = [] -> words = [].
Proof.
  intros H E. destruct words as [|w ws]; [reflexivity|].
  destruct (join_head _ H) as (c & r & E2 & _); [discriminate|]. congruence.
Qed.

Lemma expandtabs_normal s : forall col,
  forallb normal_char s = true -> Textwrap.expandtabs_from col s = s.
Proof.
  induction s as [|c r IH]; intros col H; [reflexivity|].
  simpl in H. apply andb_prop in H. destruct H as [Hc Hr].
  cbn [Textwrap.expandtabs_from].
  destruct (c =? 9)%N eqn:E.
  - apply N.eqb_eq in E. subst c. discriminate.
  - rewrite IH by assumption. reflexivity.
Qed.

Lemma normal_tw_whitespace c :
  normal_char c = true -> Textwrap.tw_whitespace c = true -> c = 32%N.
Proof.
  intros Hn Hw. apply tw_whitespace_isspace in Hw. unfold normal_char in Hn.
  rewrite Hw in Hn. simpl in Hn. apply N.eqb_eq. assumption.
Qed.

Lemma munge_normal s :
  forallb normal_char s = true -> Textwrap._munge_whitespace s = s.
Proof.
  intros H. unfold Textwrap._munge_whitespace, Textwrap.expandtabs.
  rewrite expandtabs_normal by assumption.
  induction s as [|c r IH]; [reflexivity|].
  simpl in H. apply andb_prop in H. destruct H as [Hc Hr].
  cbn [map]. rewrite IH by assumption.
  destruct (Textwrap.tw_whitespace c) eqn:E; [|reflexivity].
  rewrite (normal_tw_whitespace c Hc E). reflexivity.
Qed.

Lemma normal_nonws_spacefree s :
  forallb normal_char s = true -> forallb nonws s = true -> spacefree s = true.
Proof.
  induction s as [|c r IH]; [reflexivity|]. simpl. intros H1 H2.
  apply andb_prop in H1. destruct H1 as [Hc Hr].
  apply andb_prop in H2. destruct H2 as [Hc2 Hr2].
  rewrite IH by assumption. rewrite andb_true_r.
  unfold normal_char in Hc. destruct (isspace c); [|reflexivity].
  simpl in Hc. apply N.eqb_eq in Hc. subst c. discriminate.
Qed.

Lemma blank_tail_nil (p tail : pystr) x :
  isspace x = false -> forallb isspace tail = true ->
  forall l, p ++ [x] = l ++ tail -> tail = [].
Proof.
  intros Hx Ht l E. destruct tail as [|t0 tail'] using rev_ind; [reflexivity|].
  rewrite app_assoc in E. apply app_inj_tail in E. destruct E as [_ ->].
  rewrite forallb_app in Ht. apply andb_prop in Ht. destruct Ht as [_ Ht].
  simpl in Ht. rewrite Hx in Ht. discriminate.
Qed.

Theorem shorten_spec (uni_isalnum uni_isdecimal : char -> bool) (width : Z) (text : pystr) :
  (1 <= width)%Z ->
  let norm := join [32%N] (split (strip text)) in
  exists r,
    Textwrap.shorten uni_isalnum uni_isdecimal width ellipsis text = Ret r
    /\ (len r <= width)%Z
    /\ ((len norm <= width)%Z -> r = norm)
    /\ ((width < len norm)%Z ->
        exists kept cut,
          r = kept ++ ellipsis /\ norm = kept ++ cut /\ cut <> []
          /\ word_boundary kept cut).
Proof.
  intros Hw norm.
  assert (Hwords : Forall word_ok (split (strip text))) by (apply split_from_words; reflexivity).
  pose proof (join_normal _ Hwords) as Hnormal. fold norm in Hnormal.
  unfold Textwrap.shorten, Textwrap.fill, Textwrap.wrap, Textwrap._wrap_chunks,
    Textwrap._split_chunks. fold norm.
  rewrite (munge_normal norm Hnormal).
  destruct (width <=? 0)%Z eqn:E0; [apply Z.leb_le in E0; lia|].
  change (len Textwrap.initial_indent + len (lstrip ellipsis))%Z with 1%Z.
  destruct (1 >? width)%Z eqn:E1; [lia|].
  unfold Textwrap._split.
  destruct norm as [|c r0] eqn:En.
  - exists []. simpl. split; [reflexivity|]. split; [unfold len; simpl; lia|].
    split; [reflexivity|]. unfold len. simpl. lia.
  - rewrite <- En in *.
    destruct (join_head _ Hwords) as (c' & r' & Eh & Hc').
    { intros E. unfold norm in En. rewrite E in En. discriminate. }
    fold norm in Eh. rewrite En in Eh. inversion Eh; subst c' r'. clear Eh.
    destruct (join_last _ Hwords) as (p & x & El & Hx).
    { intros E. unfold norm in En. rewrite E in En. discriminate. }
    fold norm in El.
    assert (Hcws : Textwrap.tw_whitespace c = false).
    { destruct (Textwrap.tw_whitespace c) eqn:E; [|reflexivity].
      apply tw_whitespace_isspace in E. congruence. }
    set (chunks := Textwrap.split_chunks_from uni_isalnum uni_isdecimal (length norm) [] norm).
    assert (Hcat : concat chunks = norm) by apply split_chunks_concat.
    assert (Hne : Forall (fun c => c <> []) chunks) by apply split_chunks_nonempty.
    destruct (split_chunks_first uni_isalnum uni_isdecimal (length r0) [] c r0 Hcws)
      as (c1 & rest & Ec & Hc1).
    assert (Ec' : chunks = c1 :: rest).
    { unfold chunks. rewrite En. exact Ec. }
    assert (Hc1sf : spacefree c1 = true).
    { apply normal_nonws_spacefree; [|assumption].
      rewrite <- Hcat, Ec' in Hnormal. simpl in Hnormal. rewrite forallb_app in Hnormal.
      apply andb_prop in Hnormal. tauto. }
    destruct (wrap_loop_first_line width ellipsis Hw (Textwrap.chunks_size chunks)
                chunks c1 rest Ec' Hne Hc1sf)
      as (l & Hrun & Hlen & Hshort & Hfit);
      [unfold len; simpl; lia|change (len (lstrip ellipsis)) with 1%Z; lia|lia|].
    rewrite Hrun. exists l. split; [reflexivity|]. split; [assumption|].
    rewrite Hcat in Hfit.
    assert (Hwhole : forall tail, norm = l ++ tail -> forallb isspace tail = true -> l = norm).
    { intros tail E Ht. rewrite El in E.
      rewrite (blank_tail_nil p tail x Hx Ht l E), app_nil_r in E. rewrite El. symmetry. assumption. }
    split.
    + intros Hle. destruct (Hfit Hle) as (tail & E & Ht). apply (Hwhole tail); assumption.
    + intros Hgt. destruct Hshort as [tail E Ht|E _|j Hj E Hcut Hb|kept cut E Ek Hcut Hh].
      * rewrite Hcat in E. rewrite (Hwhole tail E Ht) in Hlen. lia.
      * exists [], norm. split; [assumption|]. split; [reflexivity|].
        split; [rewrite En; discriminate|]. left. reflexivity.
      * exists (concat (firstn j chunks)), (concat (skipn j chunks)).
        split; [assumption|].
        split; [rewrite <- concat_app, firstn_skipn; symmetry; assumption|].
        split; [assumption|].
        destruct (split_chunks_boundary uni_isalnum uni_isdecimal (length norm) [] norm j
                    (Nat.le_refl _) Hj Hb Hcut) as [H|(y & t & Ey & Hy)].
        -- right. left. assumption.
        -- right. right. exists y, t. split; [assumption|].
           destruct Hy as [Hy|Hy]; [left|right; assumption].
           apply normal_tw_whitespace; [|assumption].
           assert (Hin : In y norm).
           { rewrite <- Hcat, <- (firstn_skipn j chunks), concat_app.
             apply in_or_app. right. fold chunks in Ey. rewrite Ey. left. reflexivity. }
           rewrite forallb_forall in Hnormal. auto.
      * exists kept, cut. split; [assumption|].
        split; [rewrite <- Hcat; assumption|]. split; [assumption|].
        right. left. assumption.
Qed.

(** ** [compose_post] *)

Section ComposeFacts.

Variable uni_isalnum : char -> bool.
Variable uni_isdecimal : char -> bool.

Abbreviation compose := (compose_post uni_isalnum uni_isdecimal).

Lemma string_record_description tool :
  string_record tool = true ->
  dict_get tool (py "description") (VStr []) = VStr (description_of tool).
Proof.
  unfold string_record, str_field, description_of. intros H.
  apply andb_prop in H. destruct H as [H _]. apply andb_prop in H. destruct H as [_ H].
  destruct (dict_get tool (py "description") (VStr [])); [discriminate|reflexivity].
Qed.

Lemma compose_post_eq tool :
  string_record tool = true ->
  compose tool =
  bind (if (available_for_desc tool >? 0)%Z
        then if (len (strip (description_of tool)) >? available_for_desc tool)%Z
             then Textwrap.shorten uni_isalnum uni_isdecimal (available_for_desc tool)
                                   ellipsis (strip (description_of tool))
             else Ret (strip (description_of tool))
        else Ret [])
       (fun short_desc =>
          Ret (template_format (name_of tool) (tagline_of tool) short_desc (url_of tool))).
Proof.
  intros H. unfold compose_post. rewrite (string_record_description tool H).
  reflexivity.
Qed.

Lemma len_template_format name tagline short_desc url :
  len (template_format name tagline short_desc url)
  = (len (template_format name tagline [] url) + len short_desc)%Z.
Proof.
  unfold template_format. repeat rewrite len_app. rewrite (@len_nil N). lia.
Qed.

Lemma static_text_template tool :
  static_text tool = template_format (name_of tool) (tagline_of tool) [] (url_of tool).
Proof. reflexivity. Qed.

(** The message is as long as its fixed parts and the description it
    carries. *)
Lemma compose_post_length tool :
  string_record tool = true ->
  exists short_desc,
    compose tool
    = Ret (template_format (name_of tool) (tagline_of tool) short_desc (url_of tool))
    /\ (0 <= len short_desc)%Z
    /\ (len short_desc <= Z.max 0 (available_for_desc tool))%Z.
Proof.
  intros H. rewrite (compose_post_eq tool H).
  destruct (available_for_desc tool >? 0)%Z eqn:Ea.
  - destruct (len (strip (description_of tool)) >? available_for_desc tool)%Z eqn:El.
    + destruct (shorten_spec uni_isalnum uni_isdecimal (available_for_desc tool)
                  (strip (description_of tool))) as (r & Hr & Hlen & _); [lia|].
      rewrite Hr. exists r. split; [reflexivity|].
      pose proof (len_nonneg r). lia.
    + eexists. split; [reflexivity|].
      pose proof (len_nonneg (strip (description_of tool))). lia.
  - exists []. split; [reflexivity|]. rewrite (@len_nil N). lia.
Qed.

(** Whenever the fixed parts fit in 140 characters, so does the
    message. *)
Lemma compose_post_within_140 tool :
  string_record tool = true ->
  (len (static_text tool) <= 140)%Z ->
  exists s, compose tool = Ret s /\ (len s <= 140)%Z.
Proof.
  intros H Hs. destruct (compose_post_length tool H) as (d & E & H0 & H1).
  exists (template_format (name_of tool) (tagline_of tool) d (url_of tool)).
  split; [assumption|].
  rewrite len_template_format, <- static_text_template.
  unfold available_for_desc in H1. lia.
Qed.

End ComposeFacts.

(** C7: for a record whose fixed template parts alone have at least 140
    characters, [compose_post] puts the empty string for the
    description. *)
Theorem description_omitted_when_static_fills
        (uni_isalnum uni_isdecimal : char -> bool) (tool : dict) :
  string_record tool = true ->
  (140 <= len (static_text tool))%Z ->
  compose_post uni_isalnum uni_isdecimal tool
  = Ret (template_format (name_of tool) (tagline_of tool) [] (url_of tool)).
Proof.
  intros H Hs. rewrite (compose_post_eq _ _ tool H).
  unfold available_for_desc.
  destruct (140 - len (static_text tool) >? 0)%Z eqn:E; [lia|]. reflexivity.
Qed.

Lemma description_omitted_when_static_fills_witness :
  string_record full_tool = true
  /\ (140 <= len (static_text full_tool))%Z
  /\ compose_post ascii_isalnum ascii_isdecimal full_tool
     = Ret (template_format (name_of full_tool) (tagline_of full_tool) []
                            (url_of full_tool)).
Proof.
  assert (H1 : string_record full_tool = true) by reflexivity.
  assert (H2 : (140 <= len (static_text full_tool))%Z) by (vm_compute; discriminate).
  split; [exact H1|]. split; [exact H2|].
  exact (description_omitted_when_static_fills ascii_isalnum ascii_isdecimal full_tool H1 H2).
Defined.

(** C10: for a record whose four fields are strings, [compose_post]
    terminates and returns a string; the shortening call it may make,
    with a width of at least one and the one-character ellipsis, returns
    as well. *)
Theorem compose_post_returns
        (uni_isalnum uni_isdecimal : char -> bool) (tool : dict) :
  string_record tool = true ->
  (exists s, compose_post uni_isalnum uni_isdecimal tool = Ret s)
  /\ (forall text,
        (0 < available_for_desc tool)%Z ->
        exists r, Textwrap.shorten uni_isalnum uni_isdecimal
                    (available_for_desc tool) ellipsis text = Ret r
                  /\ (len r <= available_for_desc tool)%Z).
Proof.
  intros H. split.
  - destruct (compose_post_length uni_isalnum uni_isdecimal tool H) as (d & E & _).
    eexists. exact E.
  - intros text Ha.
    destruct (shorten_spec uni_isalnum uni_isdecimal (available_for_desc tool) text)
      as (r & Hr & Hlen & _); [lia|].
    exists r. auto.
Qed.

Lemma compose_post_returns_witness :
  string_record foo_tool = true
  /\ exists s, compose_post ascii_isalnum ascii_isdecimal foo_tool = Ret s.
Proof.
  assert (H : string_record foo_tool = true) by reflexivity.
  split; [exact H|].
  exact (proj1 (compose_post_returns ascii_isalnum ascii_isdecimal foo_tool H)).
Defined.

(** C8, as it holds on the code: when the budget is positive and the trimmed description
    is longer than the budget, the description put in the message has at
    most budget characters.  It is the description with its white space
    collapsed when that fits the budget, without any ellipsis; otherwise
    it is a beginning of the collapsed description followed by one
    ellipsis, cut at the end of a word: nothing is kept, or what is kept
    ends with a hyphen, or what is cut starts with a space or a hyphen. *)
Theorem long_description_is_shortened
        (uni_isalnum uni_isdecimal : char -> bool) (tool : dict) :
  string_record tool = true ->
  (0 < available_for_desc tool)%Z ->
  (available_for_desc tool < len (strip (description_of tool)))%Z ->
  let collapsed := join [32%N] (split (strip (description_of tool))) in
  exists short_desc,
    compose_post uni_isalnum uni_isdecimal tool
    = Ret (template_format (name_of tool) (tagline_of tool) short_desc (url_of tool))
    /\ (len short_desc <= available_for_desc tool)%Z
    /\ ((len collapsed <= available_for_desc tool)%Z -> short_desc = collapsed)
    /\ ((available_for_desc tool < len collapsed)%Z ->
        exists kept cut,
          short_desc = kept ++ ellipsis /\ collapsed = kept ++ cut /\ cut <> []
          /\ word_boundary kept cut).
Proof.
  intros H Ha Hl collapsed. rewrite (compose_post_eq _ _ tool H).
  destruct (available_for_desc tool >? 0)%Z eqn:Ea; [|lia].
  destruct (len (strip (description_of tool)) >? available_for_desc tool)%Z eqn:El; [|lia].
  destruct (shorten_spec uni_isalnum uni_isdecimal (available_for_desc tool)
              (strip (description_of tool))) as (r & Hr & Hlen & Hfit & Hcut); [lia|].
  rewrite strip_idempotent in Hfit, Hcut.
  rewrite Hr. exists r. split; [reflexivity|]. split; [assumption|].
  split; assumption.
Qed.

Lemma long_description_is_shortened_witness :
  string_record wordy_tool = true
  /\ (0 < available_for_desc wordy_tool)%Z
  /\ (available_for_desc wordy_tool < len (strip (description_of wordy_tool)))%Z
  /\ exists short_desc,
       compose_post ascii_isalnum ascii_isdecimal wordy_tool
       = Ret (template_format (name_of wordy_tool) (tagline_of wordy_tool) short_desc
                              (url_of wordy_tool))
       /\ (len short_desc <= available_for_desc wordy_tool)%Z.
Proof.
  assert (H1 : string_record wordy_tool = true) by reflexivity.
  assert (H2 : (0 < available_for_desc wordy_tool)%Z) by (vm_compute; reflexivity).
  assert (H3 : (available_for_desc wordy_tool < len (strip (description_of wordy_tool)))%Z)
    by (vm_compute; reflexivity).
  split; [exact H1|]. split; [exact H2|]. split; [exact H3|].
  destruct (long_description_is_shortened ascii_isalnum ascii_isdecimal wordy_tool H1 H2 H3)
    as (d & E & Hlen & _).
  exists d. split; [exact E|exact Hlen].
Defined.

(** C8, as stated, fails: a description whose only surplus is a run of
    spaces is put in the message with its spaces collapsed and without
    an ellipsis. *)
Lemma collapsed_description_has_no_ellipsis :
  (0 < available_for_desc spaced_tool)%Z
  /\ (available_for_desc spaced_tool < len (strip (description_of spaced_tool)))%Z
  /\ compose_post ascii_isalnum ascii_isdecimal spaced_tool
     = Ret (template_format (name_of spaced_tool) (tagline_of spaced_tool)
                            (py "a b") (url_of spaced_tool))
  /\ ~ In 0x2026%N (py "a b").
Proof.
  split; [vm_compute; reflexivity|]. split; [vm_compute; reflexivity|].
  split; [vm_compute; reflexivity|].
  simpl. intros [H|[H|[H|[]]]]; discriminate.
Qed.

(** C1 fails on the code: a record whose name has 116 characters gives
    a message of 141 characters. *)
Theorem long_name_exceeds_140 (uni_isalnum uni_isdecimal : char -> bool) :
  string_record long_name_tool = true
  /\ exists s, compose_post uni_isalnum uni_isdecimal long_name_tool = Ret s
               /\ len s = 141%Z.
Proof.
  split; [reflexivity|].
  eexists. split; [vm_compute; reflexivity|vm_compute; reflexivity].
Qed.

(** ** [read_ai_tools] *)

Lemma pystr_eqb_eq a : forall b, pystr_eqb a b = true <-> a = b.
Proof.
  induction a as [|x a IH]; intros [|y b]; simpl; try (split; [discriminate|congruence]).
  - tauto.
  - rewrite andb_true_iff, N.eqb_eq, IH. split; [intros [-> ->]; reflexivity|].
    intros E. inversion E. auto.
Qed.

Lemma pystr_eqb_refl a : pystr_eqb a a = true.
Proof. apply pystr_eqb_eq. reflexivity. Qed.

Lemma pystr_eqb_neq a b : a <> b -> pystr_eqb a b = false.
Proof.
  intros H. destruct (pystr_eqb a b) eqn:E; [|reflexivity].
  apply pystr_eqb_eq in E. contradiction.
Qed.

Lemma lookup_set_item_same d key v : lookup key (set_item d key v) = Some v.
Proof.
  induction d as [|[k x] d IH]; simpl.
  - rewrite pystr_eqb_refl. reflexivity.
  - destruct (pystr_eqb k key) eqn:E; simpl; rewrite E; [reflexivity|assumption].
Qed.

Lemma lookup_set_item_other d key key' v :
  key <> key' -> lookup key' (set_item d key v) = lookup key' d.
Proof.
  intros Hne. induction d as [|[k x] d IH]; simpl.
  - rewrite pystr_eqb_neq by assumption. reflexivity.
  - destruct (pystr_eqb k key) eqn:E; simpl.
    + apply pystr_eqb_eq in E. subst k. rewrite pystr_eqb_neq by assumption. reflexivity.
    + destruct (pystr_eqb k key'); [reflexivity|assumption].
Qed.

(** Filling in the values of a row leaves the other keys alone. *)
Lemma lookup_zip_other key keys : forall vals d,
  ~ In key keys ->
  lookup key (fold_left (fun d kv => set_item d (fst kv) (VStr (snd kv)))
                        (combine keys vals) d)
  = lookup key d.
Proof.
  induction keys as [|k keys IH]; intros vals d Hn; [reflexivity|].
  destruct vals as [|v vals]; [reflexivity|]. simpl.
  rewrite IH by (intros H; apply Hn; right; assumption).
  apply lookup_set_item_other. intros ->. apply Hn. left. reflexivity.
Qed.

Lemma lookup_zip keys : forall vals d i,
  NoDup keys -> (i < length keys)%nat -> (i < length vals)%nat ->
  lookup (nth i keys [])
         (fold_left (fun d kv => set_item d (fst kv) (VStr (snd kv)))
                    (combine keys vals) d)
  = Some (VStr (nth i vals [])).
Proof.
  induction keys as [|k keys IH]; intros vals d i Hnd Hi Hv; [simpl in Hi; lia|].
  destruct vals as [|v vals]; [simpl in Hv; lia|].
  inversion Hnd as [|? ? Hk Hnd']; subst. simpl fold_left.
  destruct i as [|i]; simpl nth.
  - rewrite lookup_zip_other by assumption. apply lookup_set_item_same.
  - apply IH; [assumption|simpl in Hi; lia|simpl in Hv; lia].
Qed.

Lemma lookup_restval_other key keys : forall d,
  ~ In key keys ->
  lookup key (fold_left (fun d k => set_item d k restval) keys d) = lookup key d.
Proof.
  induction keys as [|k keys IH]; intros d Hn; [reflexivity|]. simpl.
  rewrite IH by (intros H; apply Hn; right; assumption).
  apply lookup_set_item_other. intros ->. apply Hn. left. reflexivity.
Qed.

Lemma lookup_restval key keys : forall d,
  In key keys ->
  lookup key (fold_left (fun d k => set_item d k restval) keys d) = Some VNone.
Proof.
  induction keys as [|k keys IH]; intros d Hin; [destruct Hin|]. simpl.
  destruct (in_dec (list_eq_dec N.eq_dec) key keys) as [H|H].
  - apply IH. assumption.
  - rewrite lookup_restval_other by assumption.
    destruct Hin as [->|Hin]; [|contradiction]. apply lookup_set_item_same.
Qed.

Lemma NoDup_nth_not_in_skipn (l : list (list N)) : forall i n,
  NoDup l -> (i < n)%nat -> (i < length l)%nat -> ~ In (nth i l []) (skipn n l).
Proof.
  induction l as [|x l IH]; intros i n Hnd Hin Hl; [simpl in Hl; lia|].
  inversion Hnd as [|? ? Hx Hnd']; subst.
  destruct n as [|n]; [lia|]. simpl skipn.
  destruct i as [|i]; simpl nth.
  - intros H. apply Hx. revert H. clear. revert l.
    induction n as [|n IHn]; intros l H; [assumption|].
    destruct l as [|y l]; [destruct H|]. right. apply IHn. assumption.
  - simpl in Hl. apply IH; [assumption|lia|lia].
Qed.

Lemma nth_in_skipn (l : list (list N)) : forall i n,
  (n <= i)%nat -> (i < length l)%nat -> In (nth i l []) (skipn n l).
Proof.
  intros i n Hn Hl.
  rewrite <- (firstn_skipn n l) at 1.
  rewrite app_nth2 by (rewrite length_firstn; lia).
  apply nth_In. rewrite length_firstn, length_skipn. lia.
Qed.

Lemma slice_from_skipn {A} (l : list A) (n : nat) : slice_from l (Z.of_nat n) = skipn n l.
Proof.
  unfold slice_from. destruct (Z.of_nat n <? 0)%Z eqn:E; [apply Z.ltb_lt in E; lia|].
  rewrite Nat2Z.id. reflexivity.
Qed.

Lemma collect_rows (p : dict -> bool) (rows : list dict) : forall tools,
  fold_left (fun tools row => if negb (p row) then tools else tools ++ [row]) rows tools
  = tools ++ filter p rows.
Proof.
  induction rows as [|row rows IH]; intros tools; simpl.
  - rewrite app_nil_r. reflexivity.
  - rewrite IH. destruct (p row); simpl; [rewrite <- app_assoc|]; reflexivity.
Qed.

Lemma set_item_none d key : all_none d -> all_none (set_item d key VNone).
Proof.
  induction 1 as [|[k v] d Hv Hd IH]; simpl.
  - constructor; [reflexivity|constructor].
  - destruct (pystr_eqb k key); constructor; auto.
Qed.

Lemma fold_set_item_none keys : forall d,
  all_none d -> all_none (fold_left (fun d key => set_item d key restval) keys d).
Proof.
  induction keys as [|k keys IH]; intros d H; simpl; [assumption|].
  apply IH. apply set_item_none. assumption.
Qed.

Lemma lookup_all_none key d :
  all_none d -> lookup key d = None \/ lookup key d = Some VNone.
Proof.
  induction 1 as [|[k v] d Hv Hd IH]; simpl; [left; reflexivity|].
  destruct (pystr_eqb k key); [|assumption]. simpl in Hv. subst v. right. reflexivity.
Qed.

(** A blank row, had it been turned into a record, would have no name. *)
Lemma blank_row_has_no_name fieldnames : has_name (make_row fieldnames []) = false.
Proof.
  unfold make_row. rewrite combine_nil. simpl fold_left.
  assert (H : forall d, all_none (fields d) -> has_name d = false).
  { intros d Hd. unfold has_name, dict_get.
    destruct (lookup_all_none (py "name") (fields d) Hd) as [-> | ->]; reflexivity. }
  destruct (len fieldnames <? len (@nil pystr))%Z eqn:E1.
  { apply Z.ltb_lt in E1. pose proof (len_nonneg fieldnames). unfold len in E1 at 2.
    simpl in E1. lia. }
  destruct (len fieldnames >? len (@nil pystr))%Z; apply H; simpl.
  - apply fold_set_item_none. constructor.
  - constructor.
Qed.

Lemma dict_rows_valid fieldnames rows :
  filter has_name (dict_rows fieldnames rows)
  = filter has_name (map (make_row fieldnames) rows).
Proof.
  induction rows as [|row rows IH]; simpl; [reflexivity|].
  destruct row as [|f row']; simpl is_empty; cbv iota.
  - rewrite blank_row_has_no_name. assumption.
  - simpl. rewrite IH. reflexivity.
Qed.

Lemma DictReader_valid raw : filter has_name (DictReader raw) = valid_records raw.
Proof.
  unfold valid_records. destruct raw as [|fieldnames rows]; [reflexivity|].
  apply dict_rows_valid.
Qed.

Lemma read_ai_tools_eq files csv_path :
  read_ai_tools files csv_path
  = match files csv_path with
    | None => Raise (FileNotFoundError (py "Cannot find tools list: " ++ csv_path))
    | Some raw =>
        if is_empty (valid_records raw)
        then Raise (ValueError (py "No tools found in CSV file"))
        else Ret (valid_records raw)
    end.
Proof.
  unfold read_ai_tools. destruct (files csv_path) as [raw|]; [|reflexivity].
  fold has_name. rewrite collect_rows. simpl app. rewrite DictReader_valid. reflexivity.
Qed.

Lemma pystr_eqb_sym a b : pystr_eqb a b = pystr_eqb b a.
Proof.
  destruct (pystr_eqb a b) eqn:E.
  - apply pystr_eqb_eq in E. subst. symmetry. apply pystr_eqb_refl.
  - destruct (pystr_eqb b a) eqn:E'; [|reflexivity].
    apply pystr_eqb_eq in E'. subst. rewrite pystr_eqb_refl in E. discriminate.
Qed.

Lemma existsb_pystr_In key keys : existsb (pystr_eqb key) keys = true <-> In key keys.
Proof.
  rewrite existsb_exists. split.
  - intros (x & Hin & E). apply pystr_eqb_eq in E. subst. assumption.
  - intros H. exists key. split; [assumption|apply pystr_eqb_refl].
Qed.

Lemma lookup_set_item d key key' v :
  lookup key' (set_item d key v) = if pystr_eqb key key' then Some v else lookup key' d.
Proof.
  destruct (pystr_eqb key key') eqn:E.
  - apply pystr_eqb_eq in E. subst. apply lookup_set_item_same.
  - apply lookup_set_item_other. intros ->. rewrite pystr_eqb_refl in E. discriminate.
Qed.

(** The values a row gives to the column names. *)
Lemma lookup_zip_last key fieldnames : forall row d,
  lookup key (fold_left (fun d kv => set_item d (fst kv) (VStr (snd kv)))
                        (combine fieldnames row) d)
  = match last_field key fieldnames row with
    | Some v => Some (VStr v)
    | None => lookup key d
    end.
Proof.
  induction fieldnames as [|k fieldnames IH]; intros row d; [reflexivity|].
  destruct row as [|v row]; [reflexivity|].
  cbn [combine fold_left fst snd last_field]. rewrite IH.
  destruct (last_field key fieldnames row); [reflexivity|].
  rewrite lookup_set_item. destruct (pystr_eqb k key); reflexivity.
Qed.

Lemma skipn_beyond {A} (l : list A) n : (length l <= n)%nat -> skipn n l = [].
Proof. intros H. apply skipn_all2. assumption. Qed.

(** The record [DictReader] makes of a row holds, under every column
    name, what the row holds under it. *)
Lemma make_row_lookup fieldnames row key :
  lookup key (fields (make_row fieldnames row)) = column_value fieldnames row key.
Proof.
  unfold make_row, column_value, len. rewrite !slice_from_skipn.
  destruct (Z.of_nat (length fieldnames) <? Z.of_nat (length row))%Z eqn:E1.
  - apply Z.ltb_lt in E1. rewrite (skipn_beyond fieldnames (length row)) by lia. cbn [existsb fields].
    rewrite lookup_zip_last. destruct (last_field key fieldnames row); reflexivity.
  - apply Z.ltb_ge in E1.
    destruct (Z.of_nat (length fieldnames) >? Z.of_nat (length row))%Z eqn:E2; cbn [fields].
    + destruct (existsb (pystr_eqb key) (skipn (length row) fieldnames)) eqn:Ex.
      * apply lookup_restval. apply existsb_pystr_In. assumption.
      * rewrite lookup_restval_other.
        -- rewrite lookup_zip_last. destruct (last_field key fieldnames row); reflexivity.
        -- intros Hin. apply existsb_pystr_In in Hin. congruence.
    + rewrite (skipn_beyond fieldnames (length row)) by lia. cbn [existsb].
      rewrite lookup_zip_last. destruct (last_field key fieldnames row); reflexivity.
Qed.

Lemma make_row_restkey fieldnames row :
  restkey_entry (make_row fieldnames row)
  = (if (length fieldnames <? length row)%nat
     then Some (skipn (length fieldnames) row) else None).
Proof.
  unfold make_row, len. rewrite !slice_from_skipn.
  destruct (Z.of_nat (length fieldnames) <? Z.of_nat (length row))%Z eqn:E1.
  - apply Z.ltb_lt in E1.
    assert (E : (length fieldnames <? length row)%nat = true) by (apply Nat.ltb_lt; lia).
    rewrite E. reflexivity.
  - apply Z.ltb_ge in E1.
    assert (E : (length fieldnames <? length row)%nat = false) by (apply Nat.ltb_ge; lia).
    rewrite E.
    destruct (Z.of_nat (length fieldnames) >? Z.of_nat (length row))%Z; reflexivity.
Qed.

Lemma make_row_is_record fieldnames row : record_of_row fieldnames row (make_row fieldnames row).
Proof.
  split; [intros key; apply make_row_lookup|apply make_row_restkey].
Qed.

(** The test of [read_ai_tools] on a record is the test on its row. *)
Lemma has_name_named_row fieldnames row :
  has_name (make_row fieldnames row) = named_row fieldnames row.
Proof.
  unfold has_name, named_row, dict_get. rewrite make_row_lookup.
  destruct (column_value fieldnames row (py "name")) as [[|[|c s]]|]; reflexivity.
Qed.

Lemma filter_map {A B} (p : B -> bool) (f : A -> B) (l : list A) :
  filter p (map f l) = map f (filter (fun x => p (f x)) l).
Proof.
  induction l as [|x l IH]; simpl; [reflexivity|].
  destruct (p (f x)); simpl; rewrite IH; reflexivity.
Qed.

Lemma valid_records_rows raw :
  valid_records raw
  = map (make_row (hd [] raw)) (filter (named_row (hd [] raw)) (tl raw)).
Proof.
  unfold valid_records. rewrite filter_map. f_equal.
  apply filter_ext. intros row. apply has_name_named_row.
Qed.

Lemma records_of_rows fieldnames rows :
  Forall2 (record_of_row fieldnames) rows (map (make_row fieldnames) rows).
Proof.
  induction rows as [|row rows IH]; simpl; constructor; [apply make_row_is_record|assumption].
Qed.

(** C4: [read_ai_tools] raises a NotFound-class error when the path does
    not exist; otherwise it produces one record per row, in the order of
    the file, without the rows whose name field is absent or empty, and
    raises an EmptyData-class error exactly when no record remains. *)
Theorem read_ai_tools_contract
        (files : pystr -> option (list (list pystr))) (csv_path : pystr) :
  (files csv_path = None ->
   read_ai_tools files csv_path
   = Raise (FileNotFoundError (py "Cannot find tools list: " ++ csv_path)))
  /\ (forall raw,
        files csv_path = Some raw ->
        let fieldnames := hd [] raw in
        let kept := filter (named_row fieldnames) (tl raw) in
        (kept <> [] ->
         exists tools,
           read_ai_tools files csv_path = Ret tools
           /\ Forall2 (record_of_row fieldnames) kept tools)
        /\ (read_ai_tools files csv_path
            = Raise (ValueError (py "No tools found in CSV file"))
            <-> kept = [])).
Proof.
  rewrite read_ai_tools_eq. split.
  - intros ->. reflexivity.
  - intros raw -> fieldnames kept. rewrite valid_records_rows.
    fold fieldnames. fold kept.
    destruct kept as [|row rows] eqn:E.
    + split; [congruence|]. split; reflexivity.
    + split.
      * intros _. eexists. split; [reflexivity|]. apply records_of_rows.
      * split; discriminate.
Qed.

Lemma read_ai_tools_contract_witness :
  sample_files (py "missing.csv") = None
  /\ read_ai_tools sample_files (py "missing.csv")
     = Raise (FileNotFoundError (py "Cannot find tools list: missing.csv"))
  /\ sample_files (py "ai_tools.csv") = Some sample_table
  /\ filter (named_row header) (tl sample_table)
     = [[py "Foo"; py "bar"; py "a tool"; py "http://x.test"]; [py "Baz"]]
  /\ exists tools,
       read_ai_tools sample_files (py "ai_tools.csv") = Ret tools
       /\ Forall2 (record_of_row header)
                  [[py "Foo"; py "bar"; py "a tool"; py "http://x.test"]; [py "Baz"]] tools.
Proof.
  assert (H1 : sample_files (py "missing.csv") = None) by reflexivity.
  assert (H2 : sample_files (py "ai_tools.csv") = Some sample_table) by reflexivity.
  split; [exact H1|].
  split; [exact (proj1 (read_ai_tools_contract sample_files (py "missing.csv")) H1)|].
  split; [exact H2|]. split; [reflexivity|].
  exact (proj1 (proj2 (read_ai_tools_contract sample_files (py "ai_tools.csv"))
                      sample_table H2) ltac:(discriminate)).
Defined.

(** C3 fails on the code: a row that has a name and lacks the other
    three fields gives a record that maps them to [None], not to the
    empty string, and [compose_post] raises on that record. *)
Theorem short_row_fields_are_None :
  exists tool,
    read_ai_tools (fun _ => Some short_row_table) (py "ai_tools.csv") = Ret [tool]
    /\ dict_get tool (py "name") (VStr []) = VStr (py "Foo")
    /\ dict_get tool (py "tagline") (VStr []) = VNone
    /\ dict_get tool (py "description") (VStr []) = VNone
    /\ dict_get tool (py "url") (VStr []) = VNone
    /\ forall uni_isalnum uni_isdecimal,
         compose_post uni_isalnum uni_isdecimal tool
         = Raise (AttributeError (py "'NoneType' object has no attribute 'strip'")).
Proof.
  eexists. split; [vm_compute; reflexivity|].
  repeat (split; [reflexivity|]). intros. reflexivity.
Qed.

(** ** [post_to_x] *)

Lemma credentials_list w :
  forallb truthy_env
    [getenv w (py "TWITTER_API_KEY"); getenv w (py "TWITTER_API_SECRET");
     getenv w (py "TWITTER_ACCESS_TOKEN"); getenv w (py "TWITTER_ACCESS_SECRET")]
  = credentials_present w.
Proof. reflexivity. Qed.

Lemma absent_credential w key :
  In key credential_names -> getenv w key = None -> credentials_present w = false.
Proof.
  unfold credentials_present, credential_names. intros Hin Hnone.
  simpl in Hin. simpl forallb.
  destruct Hin as [<-|[<-|[<-|[<-|[]]]]]; rewrite Hnone; simpl;
    rewrite ?andb_false_r; reflexivity.
Qed.

Lemma post_to_x_fallback w status_text image_path t :
  credentials_present w = false ->
  post_to_x w status_text image_path t
  = (Ret tt, t ++ [Print (py "Missing Twitter API credentials. Printing instead:");
                   Print status_text;
                   Print (py "(Image saved to " ++ image_path ++ py ")")]).
Proof.
  intros H. unfold post_to_x. rewrite credentials_list, H.
  cbv [negb mbind print emit ret]. rewrite <- !app_assoc. reflexivity.
Qed.

(** The upload step of an authenticated attempt. *)
Lemma post_to_x_upload w status_text image_path t r :
  credentials_present w = true ->
  can_open w image_path t = true ->
  http_post w (upload_request w image_path) = Reply r ->
  post_to_x w status_text image_path t
  = let t1 := t ++ [HttpPost (upload_request w image_path)] in
    if http_error (status_code r) then (Raise (HTTPError (status_code r)), t1)
    else match json r with
         | None => (Raise (ValueError (py "response body is not JSON")), t1)
         | Some (JOther _) =>
             (Raise (AttributeError (py "object has no attribute 'get'")), t1)
         | Some (JObject media_id _) =>
             let t2 := t1 ++ [HttpPost (tweet_request w status_text media_id)] in
             match http_post w (tweet_request w status_text media_id) with
             | NoReply e => (Raise e, t2)
             | Reply resp =>
                 if (status_code resp >=? 400)%Z
                 then (Ret tt,
                       t2 ++ [Print (py "Failed to post tweet: "
                                        ++ str_of_int (status_code resp)
                                        ++ py " " ++ text resp)])
                 else match json resp with
                      | None => (Raise (ValueError (py "response body is not JSON")), t2)
                      | Some j =>
                          (Ret tt,
                           t2 ++ [Print (py "Posted tweet successfully: "
                                            ++ printed_json j)])
                      end
             end
         end.
Proof.
  intros Hc Ho Hu. unfold post_to_x. rewrite credentials_list, Hc. cbv [negb].
  unfold can_open in Ho.
  unfold mbind at 1. unfold mbind at 1. unfold open_rb. rewrite Ho.
  unfold mbind at 1. unfold requests_post at 1. unfold mbind at 1. unfold emit at 1.
  fold (oauth_of w). fold (upload_request w image_path). rewrite Hu.
  unfold ret at 1. unfold mbind at 1. unfold raise_for_status.
  fold (http_error (status_code r)).
  cbv zeta.
  destruct (http_error (status_code r)); [reflexivity|].
  unfold ret at 1. unfold mbind at 1. unfold json_of.
  destruct (json r) as [[media_id p|p]|]; [|reflexivity|reflexivity].
  unfold ret at 1. unfold get_media_id, ret at 1.
  fold (tweet_request w status_text media_id).
  unfold mbind at 1. unfold requests_post. unfold mbind at 1. unfold emit at 1.
  destruct (http_post w (tweet_request w status_text media_id)) as [resp|e];
    [|reflexivity].
  unfold ret at 1.
  destruct (status_code resp >=? 400)%Z; [reflexivity|].
  unfold mbind. destruct (json resp) as [j|]; reflexivity.
Qed.

(** C5: if any of the four credential values is absent, [post_to_x]
    prints the message and the image path, returns normally and makes no
    network call. *)
Theorem missing_credentials_print_only
        (w : World) (status_text image_path : pystr) (t : list event) (key : pystr) :
  In key credential_names ->
  getenv w key = None ->
  exists printed,
    post_to_x w status_text image_path t = (Ret tt, t ++ printed)
    /\ printed = [Print (py "Missing Twitter API credentials. Printing instead:");
                  Print status_text;
                  Print (py "(Image saved to " ++ image_path ++ py ")")]
    /\ existsb is_http_post printed = false.
Proof.
  intros Hin Hnone. eexists. split; [|split; [reflexivity|reflexivity]].
  apply post_to_x_fallback. apply (absent_credential w key); assumption.
Qed.

Lemma missing_credentials_print_only_witness :
  In (py "TWITTER_ACCESS_TOKEN") credential_names
  /\ getenv offline_world (py "TWITTER_ACCESS_TOKEN") = None
  /\ exists printed,
       post_to_x offline_world (py "hello") (py "card.png") [] = (Ret tt, [] ++ printed)
       /\ existsb is_http_post printed = false.
Proof.
  assert (H1 : In (py "TWITTER_ACCESS_TOKEN") credential_names)
    by (right; right; left; reflexivity).
  assert (H2 : getenv offline_world (py "TWITTER_ACCESS_TOKEN") = None) by reflexivity.
  split; [exact H1|]. split; [exact H2|].
  destruct (missing_credentials_print_only offline_world (py "hello") (py "card.png") []
              (py "TWITTER_ACCESS_TOKEN") H1 H2) as (printed & E & _ & Hp).
  exists printed. split; [exact E|exact Hp].
Defined.

(** C6: with all four credentials present, an error status from the
    media upload makes [post_to_x] raise, and the only request made is
    the upload: the post-creation request is not attempted. *)
Theorem failed_upload_raises
        (w : World) (status_text image_path : pystr) (t : list event) (r : response) :
  credentials_present w = true ->
  can_open w image_path t = true ->
  http_post w (upload_request w image_path) = Reply r ->
  http_error (status_code r) = true ->
  post_to_x w status_text image_path t
  = (Raise (HTTPError (status_code r)), t ++ [HttpPost (upload_request w image_path)]).
Proof.
  intros Hc Ho Hu He. rewrite (post_to_x_upload w status_text image_path t r Hc Ho Hu).
  cbv zeta. rewrite He. reflexivity.
Qed.

Lemma failed_upload_raises_witness :
  credentials_present (online_world upload_500 tweet_201) = true
  /\ http_error 500 = true
  /\ post_to_x (online_world upload_500 tweet_201) (py "hello") (py "card.png") []
     = (Raise (HTTPError 500),
        [HttpPost (upload_request (online_world upload_500 tweet_201) (py "card.png"))]).
Proof.
  split; [reflexivity|]. split; [reflexivity|].
  exact (failed_upload_raises (online_world upload_500 tweet_201) (py "hello") (py "card.png")
           [] (mkresponse 500 (py "Internal Server Error") None)
           eq_refl eq_refl eq_refl eq_refl).
Defined.

(** C2, as it holds on the code: during an authenticated publish attempt whose media
    upload succeeded, an error status (400 or more) from the creation of
    the post is recovered by [post_to_x]: a diagnostic with the status
    code and the body is printed and the call returns normally. *)
Theorem post_creation_error_is_recovered
        (w : World) (status_text image_path : pystr) (t : list event)
        (r : response) (media_id : pyval) (printed : pystr) (resp : response) :
  credentials_present w = true ->
  can_open w image_path t = true ->
  http_post w (upload_request w image_path) = Reply r ->
  http_error (status_code r) = false ->
  json r = Some (JObject media_id printed) ->
  http_post w (tweet_request w status_text media_id) = Reply resp ->
  (400 <= status_code resp)%Z ->
  post_to_x w status_text image_path t
  = (Ret tt,
     t ++ [HttpPost (upload_request w image_path);
           HttpPost (tweet_request w status_text media_id);
           Print (py "Failed to post tweet: " ++ str_of_int (status_code resp)
                     ++ py " " ++ text resp)]).
Proof.
  intros Hc Ho Hu He Hj Ht Hs.
  rewrite (post_to_x_upload w status_text image_path t r Hc Ho Hu).
  cbv zeta. rewrite He, Hj, Ht.
  destruct (status_code resp >=? 400)%Z eqn:E; [|lia].
  rewrite <- !app_assoc. reflexivity.
Qed.

Lemma post_creation_error_is_recovered_witness :
  credentials_present (online_world upload_ok tweet_403) = true
  /\ (400 <= 403)%Z
  /\ post_to_x (online_world upload_ok tweet_403) (py "hello") (py "card.png") []
     = (Ret tt,
        [HttpPost (upload_request (online_world upload_ok tweet_403) (py "card.png"));
         HttpPost (tweet_request (online_world upload_ok tweet_403) (py "hello")
                                 (VStr (py "710511363345354753")));
         Print (py "Failed to post tweet: 403 Forbidden")]).
Proof.
  split; [reflexivity|]. split; [lia|].
  exact (post_creation_error_is_recovered
           (online_world upload_ok tweet_403) (py "hello") (py "card.png") []
           (mkresponse 200 (py "{...}")
              (Some (JObject (VStr (py "710511363345354753")) (py "{...}"))))
           (VStr (py "710511363345354753")) (py "{...}")
           (mkresponse 403 (py "Forbidden") None)
           eq_refl eq_refl eq_refl eq_refl eq_refl eq_refl ltac:(simpl; lia)).
Defined.

(** C2, as stated, fails: an error status from the media upload is not
    recovered; the exception leaves [post_to_x] and ends [main]. *)
Lemma upload_error_propagates :
  credentials_present (online_world upload_500 tweet_201) = true
  /\ http_post (online_world upload_500 tweet_201)
       (upload_request (online_world upload_500 tweet_201) (py "card.png")) = upload_500
  /\ fst (post_to_x (online_world upload_500 tweet_201) (py "hello") (py "card.png") [])
     = Raise (HTTPError 500)
  /\ fst (main (online_world upload_500 tweet_201) ascii_isalnum ascii_isdecimal [])
     = Raise (HTTPError 500).
Proof. repeat split; vm_compute; reflexivity. Qed.

(** ** [generate_image] *)

Lemma load_fonts_default w :
  font_unavailable w = true ->
  load_fonts w (getenv w (py "AI_TOOL_FONT")) = (DefaultFont, DefaultFont, DefaultFont).
Proof.
  unfold font_unavailable, load_fonts. cbv zeta.
  set (fp := getenv w (py "AI_TOOL_FONT")).
  destruct (truthy_env fp && path_exists w (env_value fp)); [|reflexivity].
  destruct (truetype w (env_value fp) 60); [|reflexivity].
  destruct (truetype w (env_value fp) 36); [|reflexivity].
  destruct (truetype w (env_value fp) 28); [|reflexivity].
  discriminate.
Qed.

Lemma string_record_fields tool :
  string_record tool = true ->
  dict_get tool (py "name") (VStr []) = VStr (name_of tool)
  /\ dict_get tool (py "tagline") (VStr []) = VStr (tagline_of tool)
  /\ dict_get tool (py "url") (VStr []) = VStr (url_of tool).
Proof.
  unfold string_record, str_field, name_of, tagline_of, url_of. intros H.
  apply andb_prop in H. destruct H as [H H4]. apply andb_prop in H. destruct H as [H H3].
  apply andb_prop in H. destruct H as [H1 H2].
  destruct (dict_get tool (py "name") (VStr [])); [discriminate|].
  destruct (dict_get tool (py "tagline") (VStr [])); [discriminate|].
  destruct (dict_get tool (py "url") (VStr [])); [discriminate|]. auto.
Qed.

Lemma measures_textsize w s fnt :
  measures w s fnt = true -> draw_textsize w s fnt = Ret (textsize w s fnt).
Proof.
  unfold measures, draw_textsize. destruct fnt; [reflexivity|].
  destruct (find _ _); [discriminate|reflexivity].
Qed.

(** The lines of a text are in Latin-1 exactly when the text is. *)
Lemma multiline_split_latin1 s : forallb latin1 (_multiline_split s) = latin1 s.
Proof.
  assert (latin1_cons : forall c s', latin1 (c :: s') = (c <=? 0xFF)%N && latin1 s')
    by reflexivity.
  induction s as [|c rest IH]; [reflexivity|].
  cbn [_multiline_split]. destruct (N.eqb_spec c 10) as [->|_].
  - cbn [forallb]. rewrite IH, latin1_cons. reflexivity.
  - destruct (_multiline_split rest) as [|line lines]; cbn [forallb] in *.
    + rewrite !latin1_cons, <- IH. destruct (c <=? 255)%N; reflexivity.
    + rewrite !latin1_cons, <- IH, andb_assoc. reflexivity.
Qed.

Lemma find_not_latin1 lines :
  find (fun line => negb (latin1 line)) lines = None <-> forallb latin1 lines = true.
Proof.
  induction lines as [|l ls IH]; [split; reflexivity|].
  cbn [find forallb]. destruct (latin1 l); cbn [negb andb]; [exact IH|].
  split; discriminate.
Qed.

(** Text in Latin-1 can be measured with every font, and every text
    with a FreeType font. *)
Lemma latin1_measures w s fnt : latin1 s = true -> measures w s fnt = true.
Proof.
  intros H. unfold measures, draw_textsize. destruct fnt; [reflexivity|].
  rewrite <- multiline_split_latin1 in H. apply find_not_latin1 in H.
  rewrite H. reflexivity.
Qed.

Lemma truetype_measures w s path size : measures w s (TrueType path size) = true.
Proof. reflexivity. Qed.

Lemma latin1_record_drawable w tool :
  latin1 (name_of tool) = true -> latin1 (tagline_of tool) = true ->
  latin1 (url_of tool) = true -> drawable w tool = true.
Proof.
  intros H1 H2 H3. unfold drawable.
  destruct (load_fonts w (getenv w (py "AI_TOOL_FONT"))) as [[f1 f2] f3].
  rewrite !latin1_measures by assumption. reflexivity.
Qed.

(** [generate_image] on a record with string fields whose three lines
    can be measured. *)
Lemma generate_image_eq w tool output_path t :
  string_record tool = true ->
  drawable w tool = true ->
  generate_image w tool output_path t
  = if save_ok w output_path
    then (Ret tt, t ++ [SaveImage output_path (card w tool)])
    else (Raise (save_error w output_path), t).
Proof.
  intros H Hd. destruct (string_record_fields tool H) as (Hn & Ht & Hu).
  unfold generate_image, card. rewrite Hn, Ht, Hu.
  unfold drawable in Hd.
  destruct (load_fonts w (getenv w (py "AI_TOOL_FONT"))) as [[f1 f2] f3].
  apply andb_prop in Hd. destruct Hd as [Hd H3].
  apply andb_prop in Hd. destruct Hd as [H1 H2].
  unfold center_draw, lift, mbind, card_line.
  rewrite (measures_textsize w _ _ H1). cbn [bind].
  destruct (textsize w (name_of tool) f1) as [w1 h1].
  cbn [img_mode img_size img_background img_ops fst].
  rewrite (measures_textsize w _ _ H2). cbn [bind].
  destruct (textsize w (tagline_of tool) f2) as [w2 h2].
  cbn [img_mode img_size img_background img_ops fst].
  rewrite (measures_textsize w _ _ H3). cbn [bind].
  destruct (textsize w (url_of tool) f3) as [w3 h3].
  cbn [img_mode img_size img_background img_ops fst].
  unfold save. destruct (save_ok w output_path); reflexivity.
Qed.






(** ** [main] *)

(** [main] ends with the call of [post_to_x]: when the earlier steps
    return, the run ends as that call does. *)
Lemma main_ends_with_post_to_x
      (w : World) (uni_isalnum uni_isdecimal : char -> bool)
      (tools : list dict) (tool : dict) (status : pystr) (t t1 : list event) :
  read_ai_tools (csv_files w) (CSV_FILENAME w) = Ret tools ->
  select_next_tool tools = Ret tool ->
  compose_post uni_isalnum uni_isdecimal tool = Ret status ->
  generate_image w tool (py "ai_tool_card_" ++ now w ++ py ".png") t = (Ret tt, t1) ->
  main w uni_isalnum uni_isdecimal t
  = post_to_x w status (py "ai_tool_card_" ++ now w ++ py ".png") t1.
Proof.
  intros Hr Hs Hc Hg. unfold main. rewrite Hr.
  unfold mbind at 1. unfold lift at 1. rewrite Hs.
  unfold mbind at 1. unfold lift at 1. rewrite Hc.
  unfold mbind at 1. unfold lift at 1.
  unfold mbind. rewrite Hg. reflexivity.
Qed.

(** A run without credentials prints the message instead of posting it. *)
Example main_offline :
  main offline_world ascii_isalnum ascii_isdecimal []
  = (Ret tt,
     [SaveImage (py "ai_tool_card_20240101_000000.png")
        (mkimage (py "RGB") (1200, 675)%Z (255, 255, 255)%Z
           [DrawText (591, 168)%Z (py "Foo") (30, 30, 30)%Z DefaultFont;
            DrawText (591, 303)%Z (py "bar") (30, 30, 30)%Z DefaultFont;
            DrawText (561, 438)%Z (py "http://x.test") (30, 30, 30)%Z DefaultFont]);
      Print (py "Missing Twitter API credentials. Printing instead:");
      Print (template_format (py "Foo") (py "bar") (py "a tool") (py "http://x.test"));
      Print (py "(Image saved to ai_tool_card_20240101_000000.png)")]).
Proof. vm_compute. reflexivity. Qed.

(** A run whose post is refused still ends normally. *)
Example main_post_refused :
  fst (main (online_world upload_ok tweet_403) ascii_isalnum ascii_isdecimal []) = Ret tt.
Proof. vm_compute. reflexivity. Qed.

(** * Further properties *)

(** ** Rows and records *)

(** A field the row is too short for is [None] in the record. *)
Lemma make_row_missing_field (fieldnames row : list pystr) (i : nat) (default : pyval) :
  (i < length fieldnames)%nat -> (length row <= i)%nat ->
  dict_get (make_row fieldnames row) (nth i fieldnames []) default = VNone.
Proof.
  intros Hi Hr. unfold make_row, len. rewrite !slice_from_skipn.
  destruct (Z.of_nat (length fieldnames) <? Z.of_nat (length row))%Z eqn:E1;
    [apply Z.ltb_lt in E1; lia|].
  destruct (Z.of_nat (length fieldnames) >? Z.of_nat (length row))%Z eqn:E2; [|lia].
  unfold dict_get. simpl fields.
  rewrite lookup_restval by (apply nth_in_skipn; assumption). reflexivity.
Qed.

(** The fields of the record [DictReader] makes of a row, for a header
    without repeated names. *)
Theorem make_row_fields (fieldnames row : list pystr) (i : nat) (default : pyval) :
  NoDup fieldnames ->
  (i < length fieldnames)%nat ->
  dict_get (make_row fieldnames row) (nth i fieldnames []) default
  = (if (i <? length row)%nat then VStr (nth i row []) else VNone)
  /\ restkey_entry (make_row fieldnames row)
     = (if (length fieldnames <? length row)%nat
        then Some (skipn (length fieldnames) row) else None).
Proof.
  intros Hnd Hi. unfold make_row, len.
  rewrite !slice_from_skipn.
  destruct (Z.of_nat (length fieldnames) <? Z.of_nat (length row))%Z eqn:E1.
  - apply Z.ltb_lt in E1.
    assert (E : (length fieldnames <? length row)%nat = true) by (apply Nat.ltb_lt; lia).
    assert (E' : (i <? length row)%nat = true) by (apply Nat.ltb_lt; lia).
    rewrite E, E'. unfold dict_get. simpl fields. simpl restkey_entry.
    rewrite lookup_zip by (assumption || lia). auto.
  - apply Z.ltb_ge in E1.
    assert (E : (length fieldnames <? length row)%nat = false) by (apply Nat.ltb_ge; lia).
    rewrite E.
    destruct (Z.of_nat (length fieldnames) >? Z.of_nat (length row))%Z eqn:E2;
      unfold dict_get; simpl fields; simpl restkey_entry; (split; [|reflexivity]).
    + destruct (i <? length row)%nat eqn:E'.
      * apply Nat.ltb_lt in E'.
        rewrite lookup_restval_other
          by (apply NoDup_nth_not_in_skipn; assumption).
        rewrite lookup_zip by assumption. reflexivity.
      * apply Nat.ltb_ge in E'.
        rewrite lookup_restval by (apply nth_in_skipn; assumption). reflexivity.
    + assert (E' : (i <? length row)%nat = true) by (apply Nat.ltb_lt; lia).
      rewrite E'. rewrite lookup_zip by (assumption || lia). reflexivity.
Qed.

Lemma make_row_fields_witness :
  NoDup header
  /\ (4 < 5)%nat
  /\ dict_get (make_row header [py "Foo"; py "bar"]) (py "tagline") (VStr []) = VStr (py "bar")
  /\ dict_get (make_row header [py "Foo"; py "bar"]) (py "url") (VStr []) = VNone.
Proof.
  assert (H : NoDup header).
  { unfold header. repeat constructor; simpl; intros H;
      repeat (destruct H as [H|H]; [discriminate|]); exact H. }
  split; [exact H|]. split; [lia|]. split.
  - exact (proj1 (make_row_fields header [py "Foo"; py "bar"] 1 (VStr []) H ltac:(simpl; lia))).
  - exact (proj1 (make_row_fields header [py "Foo"; py "bar"] 3 (VStr []) H ltac:(simpl; lia))).
Defined.

(** ** Reading and selecting *)

Lemma filter_map_first {A B} (p : B -> bool) (f : A -> B) (rows : list A) x rest :
  filter p (map f rows) = x :: rest ->
  exists before row after,
    rows = before ++ row :: after /\ x = f row /\ p x = true
    /\ Forall (fun r => p (f r) = false) before
    /\ rest = filter p (map f after).
Proof.
  induction rows as [|r rows IH]; simpl; [discriminate|].
  destruct (p (f r)) eqn:E.
  - intros H. inversion H; subst. exists [], r, rows.
    repeat split; auto.
  - intros H. destruct (IH H) as (b & row & a & -> & -> & Hp & Hb & Hr).
    exists (r :: b), row, a. repeat split; auto.
Qed.

Lemma read_ai_tools_ret files csv_path tools :
  read_ai_tools files csv_path = Ret tools ->
  exists raw, files csv_path = Some raw /\ tools = valid_records raw /\ tools <> [].
Proof.
  rewrite read_ai_tools_eq. destruct (files csv_path) as [raw|]; [|discriminate].
  destruct (valid_records raw) as [|r rs] eqn:E; simpl; [discriminate|].
  intros H. inversion H; subst. exists raw. rewrite E. repeat split. discriminate.
Qed.

(** After a successful load the selector never fails, and it returns
    the record of the first row of the file that has a name. *)
Theorem first_named_row_is_selected
        (files : pystr -> option (list (list pystr))) (csv_path : pystr)
        (tools : list dict) :
  read_ai_tools files csv_path = Ret tools ->
  exists raw before row after,
    files csv_path = Some raw
    /\ tl raw = before ++ row :: after
    /\ Forall (fun r => has_name (make_row (hd [] raw) r) = false) before
    /\ has_name (make_row (hd [] raw) row) = true
    /\ select_next_tool tools = Ret (make_row (hd [] raw) row).
Proof.
  intros H. destruct (read_ai_tools_ret _ _ _ H) as (raw & Hf & -> & Hne).
  destruct (valid_records raw) as [|tool rest] eqn:E; [congruence|].
  unfold valid_records in E.
  destruct (filter_map_first _ _ _ _ _ E) as (b & row & a & Hr & -> & Hp & Hb & _).
  exists raw, b, row, a. simpl. auto.
Qed.

Lemma first_named_row_is_selected_witness :
  read_ai_tools sample_files (py "ai_tools.csv") = Ret (valid_records sample_table)
  /\ exists raw before row after,
       sample_files (py "ai_tools.csv") = Some raw
       /\ tl raw = before ++ row :: after
       /\ Forall (fun r => has_name (make_row (hd [] raw) r) = false) before
       /\ has_name (make_row (hd [] raw) row) = true
       /\ select_next_tool (valid_records sample_table) = Ret (make_row (hd [] raw) row).
Proof.
  assert (H : read_ai_tools sample_files (py "ai_tools.csv") = Ret (valid_records sample_table))
    by (vm_compute; reflexivity).
  split; [exact H|].
  exact (first_named_row_is_selected sample_files (py "ai_tools.csv") _ H).
Defined.

(** Every record that [read_ai_tools] returns has a non-empty string
    under [name], and at least one record is returned. *)
Theorem returned_records_have_names
        (files : pystr -> option (list (list pystr))) (csv_path : pystr)
        (tools : list dict) :
  read_ai_tools files csv_path = Ret tools ->
  tools <> []
  /\ Forall (fun tool => exists s, dict_get tool (py "name") (VStr []) = VStr s /\ s <> [])
            tools.
Proof.
  intros H. destruct (read_ai_tools_ret _ _ _ H) as (raw & Hf & -> & Hne).
  split; [assumption|]. apply Forall_forall. intros tool Hin.
  unfold valid_records in Hin. apply filter_In in Hin. destruct Hin as [_ Hn].
  unfold has_name, dict_get in *.
  destruct (lookup (py "name") (fields tool)) as [[|s]|]; try discriminate.
  exists s. split; [reflexivity|]. destruct s; [discriminate|discriminate].
Qed.

Lemma returned_records_have_names_witness :
  read_ai_tools sample_files (py "ai_tools.csv") = Ret (valid_records sample_table)
  /\ valid_records sample_table <> [].
Proof.
  assert (H : read_ai_tools sample_files (py "ai_tools.csv") = Ret (valid_records sample_table))
    by (vm_compute; reflexivity).
  split; [exact H|].
  exact (proj1 (returned_records_have_names sample_files (py "ai_tools.csv") _ H)).
Defined.

(** ** Composing *)

(** A row that stops before the description column gives a record on
    which [compose_post] raises. *)
Theorem short_row_breaks_compose_post
        (uni_isalnum uni_isdecimal : char -> bool)
        (fieldnames row : list pystr) (i : nat) :
  (i < length fieldnames)%nat ->
  nth i fieldnames [] = py "description" ->
  (length row <= i)%nat ->
  compose_post uni_isalnum uni_isdecimal (make_row fieldnames row)
  = Raise (AttributeError (py "'NoneType' object has no attribute 'strip'")).
Proof.
  intros Hi Hk Hr.
  pose proof (make_row_missing_field fieldnames row i (VStr []) Hi Hr) as H.
  rewrite Hk in H. unfold compose_post. rewrite H. reflexivity.
Qed.

Lemma short_row_breaks_compose_post_witness :
  (2 < length header)%nat
  /\ nth 2 header [] = py "description"
  /\ compose_post ascii_isalnum ascii_isdecimal (make_row header [py "Foo"; py "bar"])
     = Raise (AttributeError (py "'NoneType' object has no attribute 'strip'")).
Proof.
  assert (H : (2 < length header)%nat) by (simpl; lia).
  split; [exact H|]. split; [reflexivity|].
  exact (short_row_breaks_compose_post ascii_isalnum ascii_isdecimal header
           [py "Foo"; py "bar"] 2 H eq_refl ltac:(simpl; lia)).
Defined.

(** A description that fits the budget once trimmed is put in the
    message as it is, trimmed and otherwise unchanged. *)
Theorem fitting_description_is_kept
        (uni_isalnum uni_isdecimal : char -> bool) (tool : dict) :
  string_record tool = true ->
  (0 < available_for_desc tool)%Z ->
  (len (strip (description_of tool)) <= available_for_desc tool)%Z ->
  compose_post uni_isalnum uni_isdecimal tool
  = Ret (template_format (name_of tool) (tagline_of tool)
                         (strip (description_of tool)) (url_of tool)).
Proof.
  intros H Ha Hl. rewrite (compose_post_eq _ _ tool H).
  destruct (available_for_desc tool >? 0)%Z eqn:Ea; [|lia].
  destruct (len (strip (description_of tool)) >? available_for_desc tool)%Z eqn:El; [lia|].
  reflexivity.
Qed.

Lemma fitting_description_is_kept_witness :
  string_record foo_tool = true
  /\ (0 < available_for_desc foo_tool)%Z
  /\ (len (strip (description_of foo_tool)) <= available_for_desc foo_tool)%Z
  /\ compose_post ascii_isalnum ascii_isdecimal foo_tool
     = Ret (template_format (name_of foo_tool) (tagline_of foo_tool)
                            (strip (description_of foo_tool)) (url_of foo_tool)).
Proof.
  assert (H1 : string_record foo_tool = true) by reflexivity.
  assert (H2 : (0 < available_for_desc foo_tool)%Z) by (vm_compute; reflexivity).
  assert (H3 : (len (strip (description_of foo_tool)) <= available_for_desc foo_tool)%Z)
    by (vm_compute; discriminate).
  split; [exact H1|]. split; [exact H2|]. split; [exact H3|].
  exact (fitting_description_is_kept ascii_isalnum ascii_isdecimal foo_tool H1 H2 H3).
Defined.

(** The message is never shorter than its fixed parts and never longer
    than the larger of 140 and the length of its fixed parts. *)
Theorem message_length_bounds
        (uni_isalnum uni_isdecimal : char -> bool) (tool : dict) :
  string_record tool = true ->
  exists s,
    compose_post uni_isalnum uni_isdecimal tool = Ret s
    /\ (len (static_text tool) <= len s <= Z.max 140 (len (static_text tool)))%Z.
Proof.
  intros H.
  destruct (compose_post_length uni_isalnum uni_isdecimal tool H) as (d & E & H0 & H1).
  eexists. split; [exact E|].
  rewrite len_template_format, <- static_text_template.
  unfold available_for_desc in H1. lia.
Qed.

Lemma message_length_bounds_witness :
  string_record wordy_tool = true
  /\ exists s,
       compose_post ascii_isalnum ascii_isdecimal wordy_tool = Ret s
       /\ (len (static_text wordy_tool) <= len s <= Z.max 140 (len (static_text wordy_tool)))%Z.
Proof.
  assert (H : string_record wordy_tool = true) by reflexivity.
  split; [exact H|].
  exact (message_length_bounds ascii_isalnum ascii_isdecimal wordy_tool H).
Defined.

(** A description that had to be shortened is on one line: it holds no
    tab, line break or other white space than the plain space. *)
Theorem shortened_description_is_one_line
        (uni_isalnum uni_isdecimal : char -> bool) (tool : dict) :
  string_record tool = true ->
  (0 < available_for_desc tool)%Z ->
  (available_for_desc tool < len (strip (description_of tool)))%Z ->
  exists short_desc,
    compose_post uni_isalnum uni_isdecimal tool
    = Ret (template_format (name_of tool) (tagline_of tool) short_desc (url_of tool))
    /\ forallb normal_char short_desc = true.
Proof.
  intros H Ha Hl. rewrite (compose_post_eq _ _ tool H).
  destruct (available_for_desc tool >? 0)%Z eqn:Ea; [|lia].
  destruct (len (strip (description_of tool)) >? available_for_desc tool)%Z eqn:El; [|lia].
  destruct (shorten_spec uni_isalnum uni_isdecimal (available_for_desc tool)
              (strip (description_of tool))) as (r & Hr & Hlen & Hfit & Hcut); [lia|].
  cbv zeta in Hfit, Hcut.
  rewrite Hr. exists r. split; [reflexivity|].
  assert (Hnorm : forallb normal_char
                    (join [32%N] (split (strip (strip (description_of tool))))) = true).
  { apply join_normal. apply split_from_words. reflexivity. }
  destruct (Z.le_gt_cases (len (join [32%N] (split (strip (strip (description_of tool))))))
                          (available_for_desc tool)) as [Hle|Hgt].
  - rewrite (Hfit Hle). assumption.
  - destruct (Hcut ltac:(lia)) as (kept & cut & -> & E & _).
    rewrite E, forallb_app in Hnorm. apply andb_prop in Hnorm.
    rewrite forallb_app. destruct Hnorm as [-> _]. reflexivity.
Qed.

Lemma shortened_description_is_one_line_witness :
  string_record wordy_tool = true
  /\ (0 < available_for_desc wordy_tool)%Z
  /\ (available_for_desc wordy_tool < len (strip (description_of wordy_tool)))%Z
  /\ exists short_desc,
       compose_post ascii_isalnum ascii_isdecimal wordy_tool
       = Ret (template_format (name_of wordy_tool) (tagline_of wordy_tool) short_desc
                              (url_of wordy_tool))
       /\ forallb normal_char short_desc = true.
Proof.
  assert (H1 : string_record wordy_tool = true) by reflexivity.
  assert (H2 : (0 < available_for_desc wordy_tool)%Z) by (vm_compute; reflexivity).
  assert (H3 : (available_for_desc wordy_tool < len (strip (description_of wordy_tool)))%Z)
    by (vm_compute; reflexivity).
  split; [exact H1|]. split; [exact H2|]. split; [exact H3|].
  exact (shortened_description_is_one_line ascii_isalnum ascii_isdecimal wordy_tool H1 H2 H3).
Defined.

(** White space around the description does not change the message. *)
Theorem surrounding_space_is_ignored
        (uni_isalnum uni_isdecimal : char -> bool)
        (name tagline description url : pystr) :
  compose_post uni_isalnum uni_isdecimal (record name tagline description url)
  = compose_post uni_isalnum uni_isdecimal (record name tagline (strip description) url).
Proof.
  rewrite !compose_post_eq by reflexivity.
  change (description_of (record name tagline description url)) with description.
  change (description_of (record name tagline (strip description) url))
    with (strip description).
  rewrite strip_idempotent. reflexivity.
Qed.

(** ** Rendering *)



(** With the built-in default font, a name that holds a character above
    U+00FF cannot be measured: [generate_image] raises
    [UnicodeEncodeError] for a line of the name that is not in Latin-1
    and writes nothing. *)
Theorem default_font_rejects_wide_name
        (w : World) (tool : dict) (output_path : pystr) (t : list event) :
  string_record tool = true ->
  font_unavailable w = true ->
  latin1 (name_of tool) = false ->
  exists line,
    In line (_multiline_split (name_of tool))
    /\ latin1 line = false
    /\ generate_image w tool output_path t
       = (Raise (UnicodeEncodeError (py "latin-1") line), t).
Proof.
  intros H Hf Hl. destruct (string_record_fields tool H) as (Hn & Ht & Hu).
  unfold generate_image. rewrite Hn, Ht, Hu, (load_fonts_default w Hf).
  unfold center_draw, lift, mbind, draw_textsize.
  destruct (find (fun line => negb (latin1 line)) (_multiline_split (name_of tool)))
    as [line|] eqn:E.
  - apply find_some in E. destruct E as [Hin Hb].
    exists line. split; [exact Hin|]. split; [|reflexivity].
    destruct (latin1 line); [discriminate|reflexivity].
  - apply find_not_latin1 in E. rewrite multiline_split_latin1 in E. congruence.
Qed.

Lemma default_font_rejects_wide_name_witness :
  string_record katakana_tool = true
  /\ font_unavailable offline_world = true
  /\ latin1 (name_of katakana_tool) = false
  /\ exists line,
       generate_image offline_world katakana_tool (py "card.png") []
       = (Raise (UnicodeEncodeError (py "latin-1") line), []).
Proof.
  split; [reflexivity|]. split; [reflexivity|]. split; [reflexivity|].
  destruct (default_font_rejects_wide_name offline_world katakana_tool (py "card.png") []
              eq_refl eq_refl eq_refl) as (line & _ & _ & E).
  exists line. exact E.
Defined.

Lemma card_line_centred w s fnt y : centred w (card_line w s fnt y).
Proof.
  unfold centred, card_line, card_width.
  pose proof (Z.div_mod (1200 - fst (textsize w s fnt)) 2 ltac:(lia)) as H.
  pose proof (Z.mod_pos_bound (1200 - fst (textsize w s fnt)) 2 ltac:(lia)). lia.
Qed.

(** When the three lines can be measured, each of them is centred to
    within one pixel, whatever the measured widths are, at the heights
    168, 303 and 438. *)
Theorem lines_are_centred
        (w : World) (tool : dict) (output_path : pystr) (t : list event) :
  string_record tool = true ->
  save_ok w output_path = true ->
  drawable w tool = true ->
  exists img,
    generate_image w tool output_path t = (Ret tt, t ++ [SaveImage output_path img])
    /\ Forall (centred w) (img_ops img)
    /\ map op_y (img_ops img) = [168; 303; 438]%Z.
Proof.
  intros H Hs Hd. rewrite (generate_image_eq w tool output_path t H Hd), Hs.
  eexists. split; [reflexivity|]. unfold card.
  destruct (load_fonts w (getenv w (py "AI_TOOL_FONT"))) as [[f1 f2] f3].
  cbn [img_ops]. split; [|reflexivity].
  repeat (apply Forall_cons; [apply card_line_centred|]). apply Forall_nil.
Qed.

Lemma lines_are_centred_witness :
  string_record foo_tool = true
  /\ save_ok offline_world (py "card.png") = true
  /\ drawable offline_world foo_tool = true
  /\ exists img,
       generate_image offline_world foo_tool (py "card.png") []
       = (Ret tt, [] ++ [SaveImage (py "card.png") img])
       /\ Forall (centred offline_world) (img_ops img).
Proof.
  assert (H1 : string_record foo_tool = true) by reflexivity.
  assert (H2 : save_ok offline_world (py "card.png") = true) by reflexivity.
  assert (H3 : drawable offline_world foo_tool = true) by reflexivity.
  split; [exact H1|]. split; [exact H2|]. split; [exact H3|].
  destruct (lines_are_centred offline_world foo_tool (py "card.png") [] H1 H2 H3)
    as (img & E & Hc & _).
  exists img. split; [exact E|exact Hc].
Defined.

(** ** Publishing *)

Lemma post_to_x_cannot_open w status_text image_path t :
  credentials_present w = true ->
  can_open w image_path t = false ->
  post_to_x w status_text image_path t = (Raise (FileNotFoundError image_path), t).
Proof.
  intros Hc Ho. unfold post_to_x. rewrite credentials_list, Hc. cbv [negb].
  unfold can_open in Ho.
  unfold mbind at 1. unfold mbind at 1. unfold open_rb. rewrite Ho. reflexivity.
Qed.

Lemma post_to_x_no_reply w status_text image_path t e :
  credentials_present w = true ->
  can_open w image_path t = true ->
  http_post w (upload_request w image_path) = NoReply e ->
  post_to_x w status_text image_path t
  = (Raise e, t ++ [HttpPost (upload_request w image_path)]).
Proof.
  intros Hc Ho Hu. unfold post_to_x. rewrite credentials_list, Hc. cbv [negb].
  unfold can_open in Ho.
  unfold mbind at 1. unfold mbind at 1. unfold open_rb. rewrite Ho.
  unfold mbind at 1. unfold requests_post at 1. unfold mbind at 1. unfold emit at 1.
  fold (oauth_of w). fold (upload_request w image_path). rewrite Hu. reflexivity.
Qed.

Lemma empty_credential w key :
  In key credential_names -> getenv w key = Some [] -> credentials_present w = false.
Proof.
  unfold credentials_present, credential_names. intros Hin He.
  simpl in Hin. simpl forallb.
  destruct Hin as [<-|[<-|[<-|[<-|[]]]]]; rewrite He; simpl;
    rewrite ?andb_false_r; reflexivity.
Qed.

(** A credential that is set to the empty string counts as missing: the
    message is printed and no request is made. *)
Theorem empty_credential_counts_as_missing
        (w : World) (status_text image_path : pystr) (t : list event) (key : pystr) :
  In key credential_names ->
  getenv w key = Some [] ->
  post_to_x w status_text image_path t
  = (Ret tt, t ++ [Print (py "Missing Twitter API credentials. Printing instead:");
                   Print status_text;
                   Print (py "(Image saved to " ++ image_path ++ py ")")]).
Proof.
  intros Hin He. apply post_to_x_fallback. apply (empty_credential w key); assumption.
Qed.

Lemma empty_credential_counts_as_missing_witness :
  In (py "TWITTER_API_SECRET") credential_names
  /\ getenv blank_credentials_world (py "TWITTER_API_SECRET") = Some []
  /\ fst (post_to_x blank_credentials_world (py "hello") (py "card.png") []) = Ret tt.
Proof.
  assert (H1 : In (py "TWITTER_API_SECRET") credential_names) by (right; left; reflexivity).
  assert (H2 : getenv blank_credentials_world (py "TWITTER_API_SECRET") = Some [])
    by reflexivity.
  split; [exact H1|]. split; [exact H2|].
  exact (f_equal fst (empty_credential_counts_as_missing blank_credentials_world
                        (py "hello") (py "card.png") [] (py "TWITTER_API_SECRET") H1 H2)).
Defined.

(** When the upload and the creation of the post both succeed, exactly
    two requests are made, the upload first; the second carries the
    message and the media id of the upload reply as it came, and the
    confirmation is printed. *)
Theorem accepted_post_is_confirmed
        (w : World) (status_text image_path : pystr) (t : list event)
        (r : response) (media_id : pyval) (printed : pystr)
        (resp : response) (j : json_doc) :
  credentials_present w = true ->
  can_open w image_path t = true ->
  http_post w (upload_request w image_path) = Reply r ->
  http_error (status_code r) = false ->
  json r = Some (JObject media_id printed) ->
  http_post w (tweet_request w status_text media_id) = Reply resp ->
  (status_code resp < 400)%Z ->
  json resp = Some j ->
  post_to_x w status_text image_path t
  = (Ret tt,
     t ++ [HttpPost (upload_request w image_path);
           HttpPost (mkrequest tweet_url (oauth_of w) (TweetJson status_text [media_id]));
           Print (py "Posted tweet successfully: " ++ printed_json j)]).
Proof.
  intros Hc Ho Hu He Hj Ht Hs Hjr.
  rewrite (post_to_x_upload w status_text image_path t r Hc Ho Hu).
  cbv zeta. rewrite He, Hj, Ht.
  destruct (status_code resp >=? 400)%Z eqn:E; [lia|].
  rewrite Hjr, <- !app_assoc. reflexivity.
Qed.

Lemma accepted_post_is_confirmed_witness :
  credentials_present (online_world upload_ok tweet_201) = true
  /\ (201 < 400)%Z
  /\ fst (post_to_x (online_world upload_ok tweet_201) (py "hello") (py "card.png") [])
     = Ret tt.
Proof.
  split; [reflexivity|]. split; [lia|].
  exact (f_equal fst
           (accepted_post_is_confirmed
              (online_world upload_ok tweet_201) (py "hello") (py "card.png") []
              (mkresponse 200 (py "{...}")
                 (Some (JObject (VStr (py "710511363345354753")) (py "{...}"))))
              (VStr (py "710511363345354753")) (py "{...}")
              (mkresponse 201 (py "{...}") (Some (JObject VNone (py "{'data': {...}}"))))
              (JObject VNone (py "{'data': {...}}"))
              eq_refl eq_refl eq_refl eq_refl eq_refl eq_refl ltac:(simpl; lia) eq_refl)).
Defined.

(** Whatever the world answers, [post_to_x] makes at most two requests,
    and any request other than the upload is the creation of the post
    with the media id of an upload that was answered without an error
    status. *)
Theorem post_needs_uploaded_media
        (w : World) (status_text image_path : pystr) (t : list event) :
  exists new,
    snd (post_to_x w status_text image_path t) = t ++ new
    /\ (length (filter is_http_post new) <= 2)%nat
    /\ forall req,
         In (HttpPost req) new ->
         req <> upload_request w image_path ->
         exists r media_id printed,
           credentials_present w = true
           /\ http_post w (upload_request w image_path) = Reply r
           /\ http_error (status_code r) = false
           /\ json r = Some (JObject media_id printed)
           /\ req = tweet_request w status_text media_id.
Proof.
  destruct (credentials_present w) eqn:Hc.
  2:{ rewrite (post_to_x_fallback w status_text image_path t Hc).
      eexists. split; [reflexivity|]. split; [simpl; lia|].
      intros req Hin. simpl in Hin.
      repeat (destruct Hin as [Hin|Hin]; [discriminate|]). destruct Hin. }
  destruct (can_open w image_path t) eqn:Ho.
  2:{ rewrite (post_to_x_cannot_open w status_text image_path t Hc Ho).
      exists []. split; [simpl; rewrite app_nil_r; reflexivity|].
      split; [simpl; lia|]. intros req []. }
  destruct (http_post w (upload_request w image_path)) as [r|e] eqn:Hu.
  2:{ rewrite (post_to_x_no_reply w status_text image_path t e Hc Ho Hu).
      eexists. split; [reflexivity|]. split; [simpl; lia|].
      intros req [Hin|[]] Hne. inversion Hin. congruence. }
  rewrite (post_to_x_upload w status_text image_path t r Hc Ho Hu). cbv zeta.
  assert (Hup : forall req, HttpPost (upload_request w image_path) = HttpPost req ->
                req <> upload_request w image_path -> False).
  { intros req E Hne. inversion E. congruence. }
  destruct (http_error (status_code r)) eqn:He.
  { eexists. split; [reflexivity|]. split; [simpl; lia|].
    intros req [Hin|[]] Hne. exfalso. eauto. }
  destruct (json r) as [[media_id printed|printed]|] eqn:Hj.
  3:{ eexists. split; [reflexivity|]. split; [simpl; lia|].
      intros req [Hin|[]] Hne. exfalso. eauto. }
  2:{ eexists. split; [reflexivity|]. split; [simpl; lia|].
      intros req [Hin|[]] Hne. exfalso. eauto. }
  assert (Htw : forall req, HttpPost (tweet_request w status_text media_id) = HttpPost req ->
                exists r0 m p,
                  true = true /\ Reply r = Reply r0 /\ http_error (status_code r0) = false
                  /\ json r0 = Some (JObject m p) /\ req = tweet_request w status_text m).
  { intros req E. inversion E. exists r, media_id, printed. auto. }
  destruct (http_post w (tweet_request w status_text media_id)) as [resp|e].
  2:{ exists [HttpPost (upload_request w image_path);
              HttpPost (tweet_request w status_text media_id)].
      split; [simpl; rewrite <- app_assoc; reflexivity|]. split; [simpl; lia|].
      intros req [Hin|[Hin|[]]] Hne; [exfalso; eauto|auto]. }
  destruct (status_code resp >=? 400)%Z.
  { eexists. split; [simpl; rewrite <- !app_assoc; reflexivity|]. split; [simpl; lia|].
    intros req [Hin|[Hin|[Hin|[]]]] Hne; [exfalso; eauto|auto|discriminate]. }
  destruct (json resp) as [j|].
  - eexists. split; [simpl; rewrite <- !app_assoc; reflexivity|]. split; [simpl; lia|].
    intros req [Hin|[Hin|[Hin|[]]]] Hne; [exfalso; eauto|auto|discriminate].
  - exists [HttpPost (upload_request w image_path);
            HttpPost (tweet_request w status_text media_id)].
    split; [simpl; rewrite <- app_assoc; reflexivity|]. split; [simpl; lia|].
    intros req [Hin|[Hin|[]]] Hne; [exfalso; eauto|auto].
Qed.

(** ** The whole run *)

Lemma can_open_saved w path img t : can_open w path (t ++ [SaveImage path img]) = true.
Proof.
  unfold can_open. rewrite existsb_app. simpl. rewrite pystr_eqb_refl.
  rewrite orb_true_r. reflexivity.
Qed.

(** [main] once the table is read and the message composed. *)
Lemma main_eq w uni_isalnum uni_isdecimal raw tool rest status t :
  csv_files w (CSV_FILENAME w) = Some raw ->
  valid_records raw = tool :: rest ->
  string_record tool = true ->
  drawable w tool = true ->
  compose_post uni_isalnum uni_isdecimal tool = Ret status ->
  main w uni_isalnum uni_isdecimal t
  = if save_ok w (image_filename w)
    then post_to_x w status (image_filename w)
                   (t ++ [SaveImage (image_filename w) (card w tool)])
    else (Raise (save_error w (image_filename w)), t).
Proof.
  intros Hf Hv Hs Hd Hc. unfold main. rewrite read_ai_tools_eq, Hf, Hv.
  cbn [is_empty]. unfold mbind at 1. unfold lift at 1.
  cbn [select_next_tool]. unfold mbind at 1. unfold lift at 1.
  rewrite Hc. unfold mbind at 1. unfold lift at 1.
  fold (image_filename w). unfold mbind.
  rewrite (generate_image_eq w tool (image_filename w) t Hs Hd).
  destruct (save_ok w (image_filename w)); reflexivity.
Qed.

(** Without a table, or with a table that has no named row, the run
    ends with the error of the reader before anything is written,
    printed or sent. *)
Theorem run_stops_without_data
        (w : World) (uni_isalnum uni_isdecimal : char -> bool) (t : list event) :
  (csv_files w (CSV_FILENAME w) = None ->
   main w uni_isalnum uni_isdecimal t
   = (Raise (FileNotFoundError (py "Cannot find tools list: " ++ CSV_FILENAME w)), t))
  /\ (forall raw,
        csv_files w (CSV_FILENAME w) = Some raw ->
        valid_records raw = [] ->
        main w uni_isalnum uni_isdecimal t
        = (Raise (ValueError (py "No tools found in CSV file")), t)).
Proof.
  split.
  - intros H. unfold main. rewrite read_ai_tools_eq, H. reflexivity.
  - intros raw H Hv. unfold main. rewrite read_ai_tools_eq, H, Hv. reflexivity.
Qed.

Lemma run_stops_without_data_witness :
  csv_files empty_world (CSV_FILENAME empty_world) = None
  /\ main empty_world ascii_isalnum ascii_isdecimal []
     = (Raise (FileNotFoundError (py "Cannot find tools list: ai_tools.csv")), []).
Proof.
  split; [reflexivity|].
  exact (proj1 (run_stops_without_data empty_world ascii_isalnum ascii_isdecimal [])
               eq_refl).
Defined.

(** When the three lines can be measured and the card cannot be saved,
    the run ends with the error [image.save] raises: nothing is printed
    and no request is made. *)
Theorem unwritable_card_stops_the_run
        (w : World) (uni_isalnum uni_isdecimal : char -> bool)
        (raw : list (list pystr)) (tool : dict) (rest : list dict) (t : list event) :
  csv_files w (CSV_FILENAME w) = Some raw ->
  valid_records raw = tool :: rest ->
  string_record tool = true ->
  drawable w tool = true ->
  save_ok w (image_filename w) = false ->
  main w uni_isalnum uni_isdecimal t = (Raise (save_error w (image_filename w)), t).
Proof.
  intros Hf Hv Hs Hd Hw.
  destruct (compose_post_length uni_isalnum uni_isdecimal tool Hs) as (d & E & _).
  rewrite (main_eq w uni_isalnum uni_isdecimal raw tool rest _ t Hf Hv Hs Hd E), Hw.
  reflexivity.
Qed.

Lemma unwritable_card_stops_the_run_witness :
  csv_files readonly_world (CSV_FILENAME readonly_world) = Some sample_table
  /\ save_ok readonly_world (image_filename readonly_world) = false
  /\ main readonly_world ascii_isalnum ascii_isdecimal []
     = (Raise (save_error readonly_world (image_filename readonly_world)), []).
Proof.
  split; [reflexivity|]. split; [reflexivity|].
  exact (unwritable_card_stops_the_run readonly_world ascii_isalnum ascii_isdecimal
           sample_table
           (make_row header [py "Foo"; py "bar"; py "a tool"; py "http://x.test"])
           [make_row header [py "Baz"]] [] eq_refl eq_refl eq_refl eq_refl eq_refl).
Defined.



(** In an authenticated run on a record whose three lines can be
    measured, the card that was just saved is the file that is uploaded,
    so opening it cannot fail; when the creation of the post is then
    refused with a status of 400 or more, the diagnostic is printed and
    the run still ends normally. *)
Theorem refused_post_ends_the_run_normally
        (w : World) (uni_isalnum uni_isdecimal : char -> bool)
        (raw : list (list pystr)) (tool : dict) (rest : list dict) (status : pystr)
        (r : response) (media_id : pyval) (printed : pystr) (resp : response)
        (t : list event) :
  csv_files w (CSV_FILENAME w) = Some raw ->
  valid_records raw = tool :: rest ->
  string_record tool = true ->
  drawable w tool = true ->
  compose_post uni_isalnum uni_isdecimal tool = Ret status ->
  save_ok w (image_filename w) = true ->
  credentials_present w = true ->
  http_post w (upload_request w (image_filename w)) = Reply r ->
  http_error (status_code r) = false ->
  json r = Some (JObject media_id printed) ->
  http_post w (tweet_request w status media_id) = Reply resp ->
  (400 <= status_code resp)%Z ->
  main w uni_isalnum uni_isdecimal t
  = (Ret tt,
     t ++ [SaveImage (image_filename w) (card w tool);
           HttpPost (upload_request w (image_filename w));
           HttpPost (tweet_request w status media_id);
           Print (py "Failed to post tweet: " ++ str_of_int (status_code resp)
                     ++ py " " ++ text resp)]).
Proof.
  intros Hf Hv Hs Hd Hc Hw Hcr Hu He Hj Ht Hst.
  rewrite (main_eq w uni_isalnum uni_isdecimal raw tool rest status t Hf Hv Hs Hd Hc), Hw.
  rewrite (post_to_x_upload w status (image_filename w) _ r Hcr
             (can_open_saved w (image_filename w) (card w tool) t) Hu).
  cbv zeta. rewrite He, Hj, Ht.
  destruct (status_code resp >=? 400)%Z eqn:E; [|lia].
  rewrite <- !app_assoc. reflexivity.
Qed.

Lemma refused_post_ends_the_run_normally_witness :
  credentials_present (online_world upload_ok tweet_403) = true
  /\ (400 <= 403)%Z
  /\ fst (main (online_world upload_ok tweet_403) ascii_isalnum ascii_isdecimal []) = Ret tt.
Proof.
  split; [reflexivity|]. split; [lia|].
  exact (f_equal fst
           (refused_post_ends_the_run_normally
              (online_world upload_ok tweet_403) ascii_isalnum ascii_isdecimal
              sample_table
              (make_row header [py "Foo"; py "bar"; py "a tool"; py "http://x.test"])
              [make_row header [py "Baz"]]
              (template_format (py "Foo") (py "bar") (py "a tool") (py "http://x.test"))
              (mkresponse 200 (py "{...}")
                 (Some (JObject (VStr (py "710511363345354753")) (py "{...}"))))
              (VStr (py "710511363345354753")) (py "{...}")
              (mkresponse 403 (py "Forbidden") None) []
              eq_refl eq_refl eq_refl eq_refl eq_refl eq_refl eq_refl eq_refl eq_refl
              eq_refl eq_refl ltac:(simpl; lia))).
Defined.
